(** * The /generate proxy handler of app.py: submit, poll, fetch, extract

    A shallow embedding of [generate_image] (src/app.py) and of the parts of
    Python, Flask and [requests] it relies on.

    - JSON values are an inductive type; a parsed JSON object is an
      association list read with first-match lookup.
    - Wall-clock time ([time.time()]) is a rational number of seconds.  Only
      the outbound calls and [time.sleep] let time pass.
    - The outside world is an oracle ([world]): what each outbound call
      answers and how long it takes.
    - The handler runs in a small monad threading the clock, the trace of
      outbound calls and sleeps, and what was printed; a computation ends
      normally, by a raised exception, or by a [return] statement.
    - [while True] is a loop with fuel.  When no call takes negative time
      every round moves the clock by the poll interval at least, so 42
      rounds always reach the deadline ([poll_loop_fuel],
      [rounds_within_deadline]). *)

From Stdlib Require Import List String ZArith QArith Bool Lia Lqa.
Import ListNotations.

Local Open Scope Q_scope.

#[local] Set Warnings "-register-all".

(** ** JSON values and the Python operations used on them *)

Inductive json : Type :=
| JNull
| JBool (b : bool)
| JNum (q : Q)
| JStr (s : string)
| JArr (xs : list json)
| JObj (kvs : list (string * json)).

(** Python truthiness, as tested by [not x]. *)
Definition truthy (v : json) : bool :=
  match v with
  | JNull => false
  | JBool b => b
  | JNum q => negb (Qeq_bool q 0)
  | JStr s => negb (String.eqb s EmptyString)
  | JArr xs => match xs with [] => false | _ :: _ => true end
  | JObj kvs => match kvs with [] => false | _ :: _ => true end
  end.

Fixpoint lookup (k : string) (kvs : list (string * json)) : option json :=
  match kvs with
  | [] => None
  | (k', v) :: rest => if String.eqb k k' then Some v else lookup k rest
  end.

(** [x == "lit"] for a string literal: only an equal string is equal. *)
Definition json_eq_str (v : json) (lit : string) : bool :=
  match v with
  | JStr s => String.eqb s lit
  | _ => false
  end.

(** [x in [lit1, lit2, ...]] *)
Definition json_in_strs (v : json) (lits : list string) : bool :=
  existsb (json_eq_str v) lits.

(** The exceptions of the inner [try]: [except (KeyError, IndexError, TypeError)]. *)
Inductive lookup_error : Type :=
| KeyError
| IndexError
| TypeError.

(** [v[key]] with a string key. *)
Definition subscript_key (v : json) (key : string) : lookup_error + json :=
  match v with
  | JObj kvs => match lookup key kvs with
                | Some x => inr x
                | None => inl KeyError
                end
  | _ => inl TypeError
  end.

(** [v[0]]: first element of a list, first character of a string; a parsed
    JSON object has string keys only, so [0] is never one of them. *)
Definition subscript_0 (v : json) : lookup_error + json :=
  match v with
  | JArr xs => match xs with
               | x :: _ => inr x
               | [] => inl IndexError
               end
  | JStr s => match s with
              | String c _ => inr (JStr (String c EmptyString))
              | EmptyString => inl IndexError
              end
  | JObj _ => inl KeyError
  | _ => inl TypeError
  end.

Definition and_then {E A B} (x : E + A) (f : A -> E + B) : E + B :=
  match x with
  | inr a => f a
  | inl e => inl e
  end.

(** [result_data["result"]["output"]["images"][0]["url"]] *)
Definition extract_image_url (result_data : json) : lookup_error + json :=
  and_then (subscript_key result_data "result") (fun r =>
  and_then (subscript_key r "output") (fun o =>
  and_then (subscript_key o "images") (fun i =>
  and_then (subscript_0 i) (fun first =>
  subscript_key first "url")))).

(** ** Exceptions, responses, the world *)

Inductive exn : Type :=
| ConnectionError (detail : string) (* requests.post / requests.get failed *)
| HTTPError (status_code : Z)       (* raise_for_status *)
| JSONDecodeError                   (* response.json() on a body that is not JSON *)
| AttributeError (attr : string)    (* .get on a value that is not a dict *)
| WerkzeugHTTPException (code : Z). (* request.json could not read the body *)

(** What the installed libraries decide: whether the error of
    [response.json()] derives from [RequestException] (it does from requests
    2.27 on), and the text [f"{e}"] of an exception. *)
Record runtime : Type := {
  json_error_is_request_exception : bool;
  py_str : exn -> string
}.

Definition is_RequestException (rt : runtime) (e : exn) : bool :=
  match e with
  | ConnectionError _ => true
  | HTTPError _ => true
  | JSONDecodeError => json_error_is_request_exception rt
  | AttributeError _ => false
  | WerkzeugHTTPException _ => false
  end.

(** A Flask response: [jsonify(body), status]. *)
Record response : Type := {
  body : json;
  status : Z
}.

Definition jsonify (fields : list (string * json)) : response :=
  {| body := JObj fields; status := 200 |}.

Definition jsonify_status (fields : list (string * json)) (code : Z) : response :=
  {| body := JObj fields; status := code |}.

(** The answer to one outbound call. *)
Inductive reply : Type :=
| NoResponse (detail : string)                 (* transport failure *)
| HttpResponse (code : Z) (payload : option json). (* [None]: body is not JSON *)

Record world : Type := {
  submit_reply : reply;
  submit_latency : Q;
  status_reply : nat -> reply;    (* answer to the k-th status call *)
  status_latency : nat -> Q;
  oversleep : nat -> Q;           (* how much longer the k-th sleep lasts *)
  result_reply : reply;
  result_latency : Q
}.

(** No call takes negative time and no sleep is cut short. *)
Definition wf_world (w : world) : Prop :=
  forall k, 0 <= status_latency w k /\ 0 <= oversleep w k.

Inductive event : Type :=
| EPost (prompt : json)          (* requests.post(DO_API_URL, ...) *)
| EGetStatus (request_id : json) (* requests.get(status_url, ...) *)
| EGetResult (request_id : json) (* requests.get(result_url, ...) *)
| ESleep (seconds : Q).          (* time.sleep(seconds) *)

Inductive stdout_line : Type :=
| Line (text : string)
| LineWithValue (text : string) (v : json).

Record state : Type := {
  clock : Q;
  trace : list (Q * event);   (* oldest first, stamped with the clock at issue *)
  stdout : list stdout_line
}.

Definition initial_state (t0 : Q) : state :=
  {| clock := t0; trace := []; stdout := [] |}.

(** ** The handler monad *)

Inductive result (A : Type) : Type :=
| Ok (a : A)
| Raise (e : exn)
| Return (r : response)
| OutOfFuel.

Arguments Ok {A} a.
Arguments Raise {A} e.
Arguments Return {A} r.
Arguments OutOfFuel {A}.

Definition M (A : Type) : Type := state -> result A * state.

Definition ret {A} (a : A) : M A := fun s => (Ok a, s).
Definition raise {A} (e : exn) : M A := fun s => (Raise e, s).
Definition return_ {A} (r : response) : M A := fun s => (Return r, s).
Definition out_of_fuel {A} : M A := fun s => (OutOfFuel, s).

Definition bind {A B} (m : M A) (f : A -> M B) : M B :=
  fun s =>
    match m s with
    | (Ok a, s') => f a s'
    | (Raise e, s') => (Raise e, s')
    | (Return r, s') => (Return r, s')
    | (OutOfFuel, s') => (OutOfFuel, s')
    end.

Notation "x <- m ;; k" := (bind m (fun x => k))
  (at level 61, m at next level, right associativity).
Notation "m ;;; k" := (bind m (fun _ => k))
  (at level 61, right associativity).

Definition time_time : M Q := fun s => (Ok (clock s), s).

Definition emit (e : event) (took : Q) : M unit :=
  fun s => (Ok tt, {| clock := clock s + took;
                      trace := trace s ++ [(clock s, e)];
                      stdout := stdout s |}).

Definition print (l : stdout_line) : M unit :=
  fun s => (Ok tt, {| clock := clock s;
                      trace := trace s;
                      stdout := stdout s ++ [l] |}).

(** An outbound call: it is issued, it takes its time, and either a
    response comes back or [requests] raises. *)
Definition http_call (e : event) (took : Q) (r : reply) : M (Z * option json) :=
  emit e took ;;;
  match r with
  | NoResponse detail => raise (ConnectionError detail)
  | HttpResponse code payload => ret (code, payload)
  end.

(** [response.raise_for_status()] raises on 4xx and 5xx. *)
Definition raise_for_status (resp : Z * option json) : M unit :=
  if ((400 <=? fst resp) && (fst resp <? 600))%Z
  then raise (HTTPError (fst resp))
  else ret tt.

(** [response.json()] *)
Definition response_json (resp : Z * option json) : M json :=
  match snd resp with
  | Some j => ret j
  | None => raise JSONDecodeError
  end.

(** [d.get(key)]: the value, [None] when the key is missing, and an
    [AttributeError] when [d] is not a dict. *)
Definition py_get (d : json) (key : string) : M json :=
  match d with
  | JObj kvs => ret (match lookup key kvs with Some v => v | None => JNull end)
  | _ => raise (AttributeError "get")
  end.

(** [time.sleep(seconds)], the k-th of the request. *)
Definition time_sleep (w : world) (k : nat) (seconds : Q) : M unit :=
  emit (ESleep seconds) (seconds + oversleep w k).

(** ** Configuration *)

Definition POLL_INTERVAL : Q := 3.
Definition timeout : Q := 120.

(** [x > y] on numbers. *)
Definition Qgtb (x y : Q) : bool := negb (Qle_bool x y).

(** [not MODEL_ACCESS_KEY] is false: the variable is set and not empty. *)
Definition key_set (MODEL_ACCESS_KEY : option string) : bool :=
  match MODEL_ACCESS_KEY with
  | None => false
  | Some s => negb (String.eqb s EmptyString)
  end.

(** ** generate_image *)

Definition err (msg : string) (code : Z) : response :=
  jsonify_status [("error"%string, JStr msg)] code.

(** The [while True] loop; [k] counts the status calls made so far. *)
Fixpoint poll_loop (w : world) (request_id : json) (start_time : Q)
         (fuel : nat) (k : nat) : M unit :=
  match fuel with
  | O => out_of_fuel
  | S fuel' =>
      now <- time_time ;;
      if Qgtb (now - start_time) timeout
      then return_ (err "Request timed out while waiting for model." 504)
      else
        status_response <- http_call (EGetStatus request_id)
                                     (status_latency w k) (status_reply w k) ;;
        raise_for_status status_response ;;;
        status_data <- response_json status_response ;;
        status <- py_get status_data "status" ;;
        if json_eq_str status "COMPLETE" then ret tt
        else if json_in_strs status ["FAILED"; "ERROR"]%string
        then return_ (err "Model generation failed." 500)
        else
          time_sleep w k POLL_INTERVAL ;;;
          poll_loop w request_id start_time fuel' (S k)
  end.

(** Steps 3 and 4 of the handler: fetch the result and extract the URL. *)
Definition fetch_result (w : world) (request_id : json) : M Empty_set :=
  result_response <- http_call (EGetResult request_id)
                               (result_latency w) (result_reply w) ;;
  raise_for_status result_response ;;;
  result_data <- response_json result_response ;;
  match extract_image_url result_data with
  | inr image_url => return_ (jsonify [("imageUrl"%string, image_url)])
  | inl _ =>
      print (LineWithValue "Unexpected result structure:" result_data) ;;;
      return_ (err "Could not parse image URL from model response." 500)
  end.

(** The incoming Flask request, as far as the handler reads it:
    [request.json] gives the parsed body, or raises (415 or 400) when Flask
    cannot read one. *)
Inductive request : Type :=
| JsonBody (data : json)
| Unreadable (code : Z).

Definition request_json (req : request) : M json :=
  match req with
  | JsonBody data => ret data
  | Unreadable code => raise (WerkzeugHTTPException code)
  end.

(** The body of the outer [try]. *)
Definition try_block (w : world) (req : request) (fuel : nat) : M Empty_set :=
  data <- request_json req ;;
  prompt <- py_get data "prompt" ;;
  if negb (truthy prompt) then return_ (err "No prompt provided." 400)
  else
    submit_response <- http_call (EPost prompt)
                                 (submit_latency w) (submit_reply w) ;;
    raise_for_status submit_response ;;;
    submit_data <- response_json submit_response ;;
    request_id <- py_get submit_data "request_id" ;;
    if negb (truthy request_id) then return_ (err "Failed to submit job to DO." 500)
    else
      start_time <- time_time ;;
      poll_loop w request_id start_time fuel O ;;;
      fetch_result w request_id.

(** The two [except] clauses of the outer [try]. *)
Definition handle (rt : runtime) (e : exn) : M Empty_set :=
  if is_RequestException rt e then
    print (Line ("Request failed: " ++ py_str rt e)) ;;;
    return_ (err ("API request failed: " ++ py_str rt e) 502)
  else
    print (Line ("An error occurred: " ++ py_str rt e)) ;;;
    return_ (err ("An internal server error occurred: " ++ py_str rt e) 500).

Definition try_except {A} (m : M A) (h : exn -> M A) : M A :=
  fun s =>
    match m s with
    | (Raise e, s') => h e s'
    | other => other
    end.

(** The handler for one request arriving at time [t0], run from a fresh
    state: how it ends and the final state. *)
Definition generate_image (rt : runtime) (MODEL_ACCESS_KEY : option string)
           (w : world) (req : request) (t0 : Q) (fuel : nat)
  : result Empty_set * state :=
  (if negb (key_set MODEL_ACCESS_KEY)
   then return_ (err "Server is missing MODEL_ACCESS_KEY environment variable." 500)
   else try_except (try_block w req fuel) (handle rt)) (initial_state t0).

(** ** One round of the loop, read off the reply

    What the loop body makes of the answer to a status call. *)

Inductive verdict : Type :=
| Done               (* status == "COMPLETE": break *)
| Failed             (* status in ["FAILED", "ERROR"] *)
| Pending            (* anything else: sleep and poll again *)
| Broken (e : exn).  (* the call, raise_for_status, .json() or .get raised *)

Definition verdict_of (r : reply) : verdict :=
  match r with
  | NoResponse detail => Broken (ConnectionError detail)
  | HttpResponse code payload =>
      if ((400 <=? code) && (code <? 600))%Z then Broken (HTTPError code)
      else match payload with
           | None => Broken JSONDecodeError
           | Some (JObj kvs) =>
               let status := match lookup "status" kvs with
                             | Some v => v
                             | None => JNull
                             end in
               if json_eq_str status "COMPLETE" then Done
               else if json_in_strs status ["FAILED"; "ERROR"]%string then Failed
               else Pending
           | Some _ => Broken (AttributeError "get")
           end
  end.

(** The state once an event was issued and took its time. *)
Definition issued (e : event) (took : Q) (s : state) : state :=
  {| clock := clock s + took;
     trace := trace s ++ [(clock s, e)];
     stdout := stdout s |}.

Definition timed_out : response :=
  err "Request timed out while waiting for model." 504.
Definition generation_failed : response :=
  err "Model generation failed." 500.

Definition slept (w : world) (k : nat) (s : state) : state :=
  issued (ESleep POLL_INTERVAL) (POLL_INTERVAL + oversleep w k) s.

Definition asked (w : world) (rid : json) (k : nat) (s : state) : state :=
  issued (EGetStatus rid) (status_latency w k) s.

(** How the loop ends on a verdict that ends it. *)
Definition outcome_of (v : verdict) : result unit :=
  match v with
  | Done => Ok tt
  | Failed => Return generation_failed
  | Broken e => Raise e
  | Pending => OutOfFuel
  end.

(** The runs of the loop as a relation: [polls w rid st k s res s'] when the
    loop, entered in state [s] with [k] status calls made, ends with [res] in
    state [s']. *)
Inductive polls (w : world) (rid : json) (st : Q)
  : nat -> state -> result unit -> state -> Prop :=
| polls_timeout k s :
    Qgtb (clock s - st) timeout = true ->
    polls w rid st k s (Return timed_out) s
| polls_end k s :
    Qgtb (clock s - st) timeout = false ->
    verdict_of (status_reply w k) <> Pending ->
    polls w rid st k s (outcome_of (verdict_of (status_reply w k))) (asked w rid k s)
| polls_pending k s res s' :
    Qgtb (clock s - st) timeout = false ->
    verdict_of (status_reply w k) = Pending ->
    polls w rid st (S k) (slept w k (asked w rid k s)) res s' ->
    polls w rid st k s res s'.

(** The clock at the k-th deadline check of a request whose polling started
    at [start], as long as the loop runs. *)
Fixpoint check_clock (w : world) (start : Q) (k : nat) : Q :=
  match k with
  | O => start
  | S k' => check_clock w start k' + status_latency w k'
            + (POLL_INTERVAL + oversleep w k')
  end.

(** The events of [n] rounds that found the job pending. *)
Fixpoint rounds (rid : json) (n : nat) : list event :=
  match n with
  | O => []
  | S n' => EGetStatus rid :: ESleep POLL_INTERVAL :: rounds rid n'
  end.

Definition events (s : state) : list event := map snd (trace s).

Definition is_status (e : event) : bool :=
  match e with EGetStatus _ => true | _ => false end.
Definition is_fetch (e : event) : bool :=
  match e with EGetResult _ => true | _ => false end.
Definition is_call (e : event) : bool :=
  match e with ESleep _ => false | _ => true end.

Definition status_calls (s : state) : nat :=
  List.length (filter is_status (events s)).
Definition fetch_calls (s : state) : nat :=
  List.length (filter is_fetch (events s)).
Definition outbound_calls (s : state) : nat :=
  List.length (filter is_call (events s)).

(** The prompt the handler goes on with: the body is a JSON object whose
    [prompt] is truthy. *)
Definition request_prompt (req : request) : option json :=
  match req with
  | JsonBody (JObj kvs) =>
      match lookup "prompt" kvs with
      | Some v => if truthy v then Some v else None
      | None => None
      end
  | _ => None
  end.

(** The job handle in the data of a submit response, if it has one. *)
Definition handle_of (submit_data : json) : option json :=
  match submit_data with
  | JObj kvs =>
      match lookup "request_id" kvs with
      | Some v => if truthy v then Some v else None
      | None => None
      end
  | _ => None
  end.

Definition http_error (code : Z) : bool := ((400 <=? code) && (code <? 600))%Z.

(** The job handle the submit call yields, if it yields one. *)
Definition job_handle (w : world) : option json :=
  match submit_reply w with
  | HttpResponse code (Some submit_data) =>
      if http_error code then None else handle_of submit_data
  | _ => None
  end.

(** The two shapes of a response of the handler. *)
Definition is_success (r : response) : Prop :=
  exists image_url, r = jsonify [("imageUrl"%string, image_url)].
Definition is_error (r : response) (code : Z) : Prop :=
  exists msg, r = err msg code.

(** States along a run. *)
Definition submitted (w : world) (p : json) (t0 : Q) : state :=
  issued (EPost p) (submit_latency w) (initial_state t0).

Definition fetched (w : world) (rid : json) (s : state) : state :=
  issued (EGetResult rid) (result_latency w) s.

Definition logged (l : stdout_line) (s : state) : state :=
  {| clock := clock s; trace := trace s; stdout := stdout s ++ [l] |}.

(** The response built by the [except] clause that catches [e]. *)
Definition caught (rt : runtime) (e : exn) : response :=
  if is_RequestException rt e
  then err ("API request failed: " ++ py_str rt e) 502
  else err ("An internal server error occurred: " ++ py_str rt e) 500.

Definition caught_line (rt : runtime) (e : exn) : stdout_line :=
  if is_RequestException rt e
  then Line ("Request failed: " ++ py_str rt e)
  else Line ("An error occurred: " ++ py_str rt e).

Definition unparseable : response :=
  err "Could not parse image URL from model response." 500.

(** What the fetch step answers and prints, read off the reply. *)
Definition fetch_end (rt : runtime) (r : reply) : response * list stdout_line :=
  match r with
  | NoResponse detail =>
      (caught rt (ConnectionError detail), [caught_line rt (ConnectionError detail)])
  | HttpResponse code payload =>
      if http_error code
      then (caught rt (HTTPError code), [caught_line rt (HTTPError code)])
      else match payload with
           | None => (caught rt JSONDecodeError, [caught_line rt JSONDecodeError])
           | Some result_data =>
               match extract_image_url result_data with
               | inr image_url => (jsonify [("imageUrl"%string, image_url)], [])
               | inl _ =>
                   (unparseable,
                    [LineWithValue "Unexpected result structure:" result_data])
               end
           end
  end.

(** The five ways a request that got a job handle can end, after [m] rounds
    that found the job pending: out of fuel, timed out at the deadline check,
    failed job, a status call that raised, or the job done and fetched. *)
Inductive polling_end (rt : runtime) (w : world) (p rid : json) (st : Q)
          (fuel m : nat) : result Empty_set -> state -> Prop :=
| end_fuel s' :
    m = fuel ->
    events s' = EPost p :: rounds rid m ->
    stdout s' = [] ->
    polling_end rt w p rid st fuel m OutOfFuel s'
| end_timeout s' :
    timeout < check_clock w st m - st ->
    clock s' = check_clock w st m ->
    events s' = EPost p :: rounds rid m ->
    stdout s' = [] ->
    polling_end rt w p rid st fuel m (Return timed_out) s'
| end_failed s' :
    check_clock w st m - st <= timeout ->
    verdict_of (status_reply w m) = Failed ->
    events s' = EPost p :: rounds rid m ++ [EGetStatus rid] ->
    stdout s' = [] ->
    polling_end rt w p rid st fuel m (Return generation_failed) s'
| end_broken e s' :
    check_clock w st m - st <= timeout ->
    verdict_of (status_reply w m) = Broken e ->
    events s' = EPost p :: rounds rid m ++ [EGetStatus rid] ->
    stdout s' = [caught_line rt e] ->
    polling_end rt w p rid st fuel m (Return (caught rt e)) s'
| end_fetched s' :
    check_clock w st m - st <= timeout ->
    verdict_of (status_reply w m) = Done ->
    events s' = EPost p :: rounds rid m ++ [EGetStatus rid; EGetResult rid] ->
    stdout s' = snd (fetch_end rt (result_reply w)) ->
    polling_end rt w p rid st fuel m
                (Return (fst (fetch_end rt (result_reply w)))) s'.

(** ** The words of the specification *)

(** The prompt of a request: the [prompt] field of its JSON body. *)
Definition prompt_of (req : request) : option json :=
  match req with
  | JsonBody (JObj kvs) => lookup "prompt" kvs
  | _ => None
  end.

(** "whose prompt is missing or empty" *)
Definition prompt_missing_or_empty (req : request) : Prop :=
  prompt_of req = None \/ prompt_of req = Some (JStr "").

(** "the nested path result, output, images, first element, url": objects
    down to a non-empty list whose first element is an object with a [url]. *)
Definition path_resolves (result_data : json) (u : json) : Prop :=
  exists kvs1 kvs2 kvs3 kvs4 rest,
    result_data = JObj kvs1
    /\ lookup "result" kvs1 = Some (JObj kvs2)
    /\ lookup "output" kvs2 = Some (JObj kvs3)
    /\ lookup "images" kvs3 = Some (JArr (JObj kvs4 :: rest))
    /\ lookup "url" kvs4 = Some u.

(** ** Sample inputs *)

Definition sample_runtime : runtime :=
  {| json_error_is_request_exception := true;
     py_str := fun e =>
       match e with
       | ConnectionError detail => detail
       | HTTPError _ => "HTTP error"
       | JSONDecodeError => "Expecting value: line 1 column 1 (char 0)"
       | AttributeError _ => "object has no attribute 'get'"
       | WerkzeugHTTPException _ => "Unsupported Media Type"
       end%string |}.

Definition sample_key : option string := Some "secret"%string.

Definition sample_request : request :=
  JsonBody (JObj [("prompt"%string, JStr "a cat")]).

Definition ok_json (j : json) : reply := HttpResponse 200 (Some j).

Definition status_json (s : string) : reply :=
  ok_json (JObj [("status"%string, JStr s)]).

Definition sample_result : json :=
  JObj [("result"%string,
         JObj [("output"%string,
                JObj [("images"%string,
                       JArr [JObj [("url"%string, JStr "https://x/y.png")]])])])].

(** A world whose job is pending for [n] polls and then has status [last]. *)
Definition sample_world (n : nat) (last : string) : world :=
  {| submit_reply := ok_json (JObj [("request_id"%string, JStr "job-1")]);
     submit_latency := 1;
     status_reply := fun k => if Nat.ltb k n then status_json "IN_PROGRESS"
                              else status_json last;
     status_latency := fun _ => 1 # 2;
     oversleep := fun _ => 0;
     result_reply := ok_json sample_result;
     result_latency := 1 |}.

(** The same world with another submit reply, fetch reply or submit latency. *)
Definition with_submit_reply (w : world) (r : reply) : world :=
  {| submit_reply := r;
     submit_latency := submit_latency w;
     status_reply := status_reply w;
     status_latency := status_latency w;
     oversleep := oversleep w;
     result_reply := result_reply w;
     result_latency := result_latency w |}.

Definition with_result_reply (w : world) (r : reply) : world :=
  {| submit_reply := submit_reply w;
     submit_latency := submit_latency w;
     status_reply := status_reply w;
     status_latency := status_latency w;
     oversleep := oversleep w;
     result_reply := r;
     result_latency := result_latency w |}.

Definition with_submit_latency (w : world) (d : Q) : world :=
  {| submit_reply := submit_reply w;
     submit_latency := d;
     status_reply := status_reply w;
     status_latency := status_latency w;
     oversleep := oversleep w;
     result_reply := result_reply w;
     result_latency := result_latency w |}.

(** A world whose fetch answers with an empty list of images. *)
Definition empty_images : json :=
  JObj [("result"%string,
         JObj [("output"%string, JObj [("images"%string, JArr [])])])].

Definition empty_images_world : world :=
  with_result_reply (sample_world 2 "COMPLETE") (ok_json empty_images).

(** A world whose job never leaves IN_PROGRESS. *)
Definition stuck_world : world :=
  {| submit_reply := ok_json (JObj [("request_id"%string, JStr "job-1")]);
     submit_latency := 1;
     status_reply := fun _ => status_json "IN_PROGRESS";
     status_latency := fun _ => 1 # 2;
     oversleep := fun _ => 0;
     result_reply := ok_json sample_result;
     result_latency := 1 |}.

(** A world whose submit call fails in transport. *)
Definition unreachable_world : world :=
  with_submit_reply (sample_world 2 "COMPLETE") (NoResponse "connection refused").

(** ** Further readings of the handler *)

(** What reading a reply gives the handler: the call itself,
    [raise_for_status()] and [.json()], in this order. *)
Definition reply_data (r : reply) : exn + json :=
  match r with
  | NoResponse detail => inl (ConnectionError detail)
  | HttpResponse code payload =>
      if http_error code then inl (HTTPError code)
      else match payload with
           | None => inl JSONDecodeError
           | Some j => inr j
           end
  end.

Definition is_post (e : event) : bool :=
  match e with EPost _ => true | _ => false end.

Definition submit_calls (s : state) : nat :=
  List.length (filter is_post (events s)).

(** The same world with another answer to the j-th status call. *)
Definition with_status_reply (w : world) (j : nat) (r : reply) : world :=
  {| submit_reply := submit_reply w;
     submit_latency := submit_latency w;
     status_reply := fun k => if Nat.eqb k j then r else status_reply w k;
     status_latency := status_latency w;
     oversleep := oversleep w;
     result_reply := result_reply w;
     result_latency := result_latency w |}.

(** A world whose second status call is answered 503. *)
Definition overloaded_world : world :=
  with_status_reply stuck_world 1 (HttpResponse 503 None).

(** A world whose second status call is answered with a page of HTML. *)
Definition html_world : world :=
  with_status_reply stuck_world 1 (HttpResponse 200 None).

(** The answers the handler gives without printing anything. *)
Definition quiet_answer (r : response) : Prop :=
  r = err "Server is missing MODEL_ACCESS_KEY environment variable." 500
  \/ r = err "No prompt provided." 400
  \/ r = err "Failed to submit job to DO." 500
  \/ r = timed_out
  \/ r = generation_failed
  \/ is_success r.

(** A world whose result holds [null] where the URL should be. *)
Definition null_url : json :=
  JObj [("result"%string,
         JObj [("output"%string,
                JObj [("images"%string,
                       JArr [JObj [("url"%string, JNull)]])])])].

Definition null_url_world : world :=
  with_result_reply (sample_world 2 "COMPLETE") (ok_json null_url).

(** ** The page: the submit handler of the form in [HTML_CONTENT]

    The script of the page, run once for one submit of the form.  Texts
    that JavaScript derives from a value that is not a string are kept as
    [StringOf v]; the texts of the errors the browser itself throws come
    from [browser]. *)

Inductive js_text : Type :=
| Text (s : string)
| StringOf (v : json).   (* String(v) of a value that is not a string *)

(** [String(v)], as [new Error(v).message] and an assignment to [img.src]
    take it. *)
Definition js_string (v : json) : js_text :=
  match v with
  | JStr s => Text s
  | _ => StringOf v
  end.

(** JavaScript truthiness of a parsed JSON value: every array and every
    object is truthy. *)
Definition js_truthy (v : json) : bool :=
  match v with
  | JNull => false
  | JBool b => b
  | JNum q => negb (Qeq_bool q 0)
  | JStr s => negb (String.eqb s EmptyString)
  | JArr _ => true
  | JObj _ => true
  end.

(** [v.key] for a key no built-in prototype defines ([error], [imageUrl]):
    [None] when reading it throws (v is null), [Some None] for [undefined]. *)
Definition js_member (v : json) (key : string) : option (option json) :=
  match v with
  | JNull => None
  | JObj kvs => Some (lookup key kvs)
  | _ => Some None
  end.

Record browser : Type := {
  json_syntax_error : string;            (* response.json() on a body that is not JSON *)
  null_member_error : string -> string   (* reading a property of null *)
}.

(** What [fetch('/generate', ...)] comes back with. *)
Inductive page_fetch : Type :=
| Rejected (msg : string)                     (* the request itself failed *)
| Answered (code : Z) (payload : option json). (* [None]: body is not JSON *)

(** [response.ok] *)
Definition response_ok (code : Z) : bool := ((200 <=? code) && (code <=? 299))%Z.

Record page : Type := {
  btn_disabled : bool;      (* generateBtn.disabled *)
  btn_text : string;        (* btnText.textContent *)
  loader_hidden : bool;     (* loader has class hidden *)
  message : js_text;        (* messageEl.textContent *)
  result_hidden : bool;     (* resultEl has class hidden *)
  image_src : js_text;      (* resultImage.src *)
  link_href : js_text;      (* resultLink.href *)
  requests_sent : list (bool * json); (* bodies posted, and whether the button was disabled then *)
  console : list js_text    (* console.error *)
}.

(** The page as the HTML has it. *)
Definition fresh_page : page :=
  {| btn_disabled := false;
     btn_text := "Generate Image";
     loader_hidden := true;
     message := Text "";
     result_hidden := true;
     image_src := Text "";
     link_href := Text "#";
     requests_sent := [];
     console := [] |}.

Definition setLoading (isLoading : bool) (pg : page) : page :=
  {| btn_disabled := isLoading;
     btn_text := if isLoading then "Generating..." else "Generate Image";
     loader_hidden := negb isLoading;
     message := message pg;
     result_hidden := result_hidden pg;
     image_src := image_src pg;
     link_href := link_href pg;
     requests_sent := requests_sent pg;
     console := console pg |}.

Definition showMessage (msg : js_text) (pg : page) : page :=
  {| btn_disabled := btn_disabled pg;
     btn_text := btn_text pg;
     loader_hidden := loader_hidden pg;
     message := msg;
     result_hidden := result_hidden pg;
     image_src := image_src pg;
     link_href := link_href pg;
     requests_sent := requests_sent pg;
     console := console pg |}.

Definition post_generate (body : json) (pg : page) : page :=
  {| btn_disabled := btn_disabled pg;
     btn_text := btn_text pg;
     loader_hidden := loader_hidden pg;
     message := message pg;
     result_hidden := result_hidden pg;
     image_src := image_src pg;
     link_href := link_href pg;
     requests_sent := requests_sent pg ++ [(btn_disabled pg, body)];
     console := console pg |}.

(** The success branch: set the image and the link, show the result area,
    clear the message. *)
Definition show_image (url : json) (pg : page) : page :=
  showMessage (Text "")
    {| btn_disabled := btn_disabled pg;
       btn_text := btn_text pg;
       loader_hidden := loader_hidden pg;
       message := message pg;
       result_hidden := false;
       image_src := js_string url;
       link_href := js_string url;
       requests_sent := requests_sent pg;
       console := console pg |}.

(** The [catch] block: log the error, show its message, hide the result. *)
Definition show_error (msg : js_text) (pg : page) : page :=
  let logged_pg :=
    {| btn_disabled := btn_disabled pg;
       btn_text := btn_text pg;
       loader_hidden := loader_hidden pg;
       message := message pg;
       result_hidden := result_hidden pg;
       image_src := image_src pg;
       link_href := link_href pg;
       requests_sent := requests_sent pg;
       console := console pg ++ [msg] |} in
  let shown := showMessage msg logged_pg in
  {| btn_disabled := btn_disabled shown;
     btn_text := btn_text shown;
     loader_hidden := loader_hidden shown;
     message := message shown;
     result_hidden := true;
     image_src := image_src shown;
     link_href := link_href shown;
     requests_sent := requests_sent shown;
     console := console shown |}.

Definition unknown_error : json := JStr "An unknown error occurred.".

(** The body of the [try], after the fetch: the image URL to show ([inr]),
    or the message of the error thrown ([inl]). *)
Definition read_answer (br : browser) (answer : page_fetch) : js_text + json :=
  match answer with
  | Rejected msg => inl (Text msg)
  | Answered code payload =>
      if negb (response_ok code) then
        match payload with
        | None => inl (Text (json_syntax_error br))
        | Some errorData =>
            match js_member errorData "error" with
            | None => inl (Text (null_member_error br "error"))
            | Some (Some e) =>
                inl (js_string (if js_truthy e then e else unknown_error))
            | Some None => inl (js_string unknown_error)
            end
        end
      else
        match payload with
        | None => inl (Text (json_syntax_error br))
        | Some data =>
            match js_member data "imageUrl" with
            | None => inl (Text (null_member_error br "imageUrl"))
            | Some (Some url) =>
                if js_truthy url then inr url
                else inl (Text "Backend did not return an image URL.")
            | Some None => inl (Text "Backend did not return an image URL.")
            end
        end
  end.

(** The listener of the form's submit event, for the text in the prompt
    field and a server that answers [net body] to the body posted. *)
Definition submit_handler (br : browser) (net : json -> page_fetch)
           (prompt : string) (pg : page) : page :=
  if String.eqb prompt EmptyString
  then showMessage (Text "Please enter a prompt.") pg
  else
    let body := JObj [("prompt"%string, JStr prompt)] in
    let loading := post_generate body (setLoading true pg) in
    let settled :=
      match read_answer br (net body) with
      | inr url => show_image url loading
      | inl msg => show_error msg loading
      end in
    setLoading false settled.

Definition sample_browser : browser :=
  {| json_syntax_error := "Unexpected token < in JSON at position 0";
     null_member_error := fun key =>
       ("Cannot read properties of null (reading '" ++ key ++ "')")%string |}.

(** What the page receives when the handler's response [r] is delivered. *)
Definition delivered (r : response) : page_fetch :=
  Answered (status r) (Some (body r)).

(** A server that always answers with the sample image. *)
Definition image_server : json -> page_fetch :=
  fun _ => delivered (jsonify [("imageUrl"%string, JStr "https://x/y.png")]).

(** The clock readings at which the status calls of a run were issued. *)
Definition status_times (s : state) : list Q :=
  map fst (filter (fun te => is_status (snd te)) (trace s)).

(** A world whose second status call is answered with a JSON list. *)
Definition list_world : world :=
  with_status_reply stuck_world 1 (ok_json (JArr [JStr "IN_PROGRESS"])).

(** "the well-formed structure, with u a string": the path resolves and
    what it leads to is a string. *)
Definition well_formed_result (result_data : json) : Prop :=
  exists u, path_resolves result_data (JStr u).

Lemma poll_loop_step (w : world) (rid : json) (st : Q) (fuel k : nat) (s : state) :
  poll_loop w rid st (S fuel) k s =
  if Qgtb (clock s - st) timeout then (Return timed_out, s)
  else
    let s1 := asked w rid k s in
    match verdict_of (status_reply w k) with
    | Done => (Ok tt, s1)
    | Failed => (Return generation_failed, s1)
    | Broken e => (Raise e, s1)
    | Pending => poll_loop w rid st fuel (S k) (slept w k s1)
    end.
Proof.
  cbn [poll_loop]. unfold bind at 1. unfold time_time at 1.
  destruct (Qgtb (clock s - st) timeout); [reflexivity|].
  unfold verdict_of, http_call, raise_for_status, response_json, py_get,
    time_sleep, bind, emit, raise, ret, return_, asked, issued, slept.
  destruct (status_reply w k) as [detail|code payload]; cbn [fst snd]; [reflexivity|].
  destruct ((400 <=? code) && (code <? 600))%Z; [reflexivity|].
  destruct payload as [[ | b | q | str | xs | kvs]|]; try reflexivity.
  destruct (json_eq_str _ "COMPLETE"); [reflexivity|].
  destruct (json_in_strs _ _); reflexivity.
Qed.

(** ** Comparisons on the clock *)

Lemma Qgtb_true (x y : Q) : Qgtb x y = true <-> y < x.
Proof.
  unfold Qgtb. rewrite negb_true_iff. split; intro H.
  - apply Qnot_le_lt. intro Hle. apply Qle_bool_iff in Hle. congruence.
  - destruct (Qle_bool x y) eqn:E; [|reflexivity].
    apply Qle_bool_iff in E. exfalso. apply (Qlt_not_le _ _ H E).
Qed.

Lemma Qgtb_false (x y : Q) : Qgtb x y = false <-> x <= y.
Proof.
  unfold Qgtb. rewrite negb_false_iff. apply Qle_bool_iff.
Qed.

Lemma Qgtb_compat (x x' y : Q) : x == x' -> Qgtb x y = Qgtb x' y.
Proof.
  intro H. destruct (Qgtb x' y) eqn:E.
  - apply Qgtb_true. apply Qgtb_true in E. rewrite H. exact E.
  - apply Qgtb_false. apply Qgtb_false in E. rewrite H. exact E.
Qed.

(** ** The loop and its relation *)

Lemma poll_loop_polls (w : world) (rid : json) (st : Q) (fuel : nat) :
  forall k s res s',
    poll_loop w rid st fuel k s = (res, s') ->
    res <> OutOfFuel ->
    polls w rid st k s res s'.
Proof.
  induction fuel as [|fuel IH]; intros k s res s' Hrun Hres.
  - cbn in Hrun. inversion Hrun; subst. congruence.
  - rewrite poll_loop_step in Hrun.
    destruct (Qgtb (clock s - st) timeout) eqn:Hc.
    + inversion Hrun; subst. now apply polls_timeout.
    + cbv zeta in Hrun.
      destruct (verdict_of (status_reply w k)) eqn:Hv.
      * inversion Hrun; subst.
        change (Ok tt) with (outcome_of Done). rewrite <- Hv.
        apply polls_end; [assumption | congruence].
      * inversion Hrun; subst.
        change (Return generation_failed) with (@outcome_of Failed).
        rewrite <- Hv. apply polls_end; [assumption | congruence].
      * apply polls_pending; auto.
      * inversion Hrun; subst.
        change (@Raise unit e) with (outcome_of (Broken e)).
        rewrite <- Hv. apply polls_end; [assumption | congruence].
Qed.

Lemma polls_poll_loop (w : world) (rid : json) (st : Q) k s res s' :
  polls w rid st k s res s' ->
  exists n, forall fuel, (n <= fuel)%nat -> poll_loop w rid st fuel k s = (res, s').
Proof.
  induction 1 as [k s Hc | k s Hc Hv | k s res s' Hc Hv _ [n IH]].
  - exists 1%nat. intros [|fuel] Hle; [lia|].
    rewrite poll_loop_step, Hc. reflexivity.
  - exists 1%nat. intros [|fuel] Hle; [lia|].
    rewrite poll_loop_step, Hc. cbv zeta.
    destruct (verdict_of (status_reply w k)); try reflexivity. congruence.
  - exists (S n). intros [|fuel] Hle; [lia|].
    rewrite poll_loop_step, Hc. cbv zeta. rewrite Hv. apply IH. lia.
Qed.

(** With calls and sleeps that take no negative time, each round moves the
    clock by at least the poll interval, so the fuel is never the limit. *)
Lemma poll_loop_fuel (w : world) (rid : json) (st : Q) :
  wf_world w ->
  forall fuel k s,
    timeout - (clock s - st) < POLL_INTERVAL * inject_Z (Z.of_nat fuel) ->
    fst (poll_loop w rid st (S fuel) k s) <> OutOfFuel.
Proof.
  intros Hwf. unfold timeout, POLL_INTERVAL.
  induction fuel as [|fuel IH]; intros k s Hlt; rewrite poll_loop_step.
  - destruct (Qgtb (clock s - st) timeout) eqn:Hc; [cbn; congruence|].
    apply Qgtb_false in Hc. unfold timeout in Hc.
    change (inject_Z (Z.of_nat 0)) with 0 in Hlt. lra.
  - destruct (Qgtb (clock s - st) timeout) eqn:Hc; [cbn; congruence|].
    cbv zeta. destruct (verdict_of (status_reply w k)); try (cbn; congruence).
    apply IH. cbn [clock slept asked issued].
    destruct (Hwf k) as [Hl Ho]. unfold POLL_INTERVAL.
    rewrite Nat2Z.inj_succ, <- Z.add_1_r, inject_Z_plus in Hlt.
    change (inject_Z 1) with 1 in Hlt. lra.
Qed.

Lemma events_issued (e : event) (took : Q) (s : state) :
  events (issued e took s) = events s ++ [e].
Proof. unfold events, issued. cbn [trace]. now rewrite map_app. Qed.

Lemma events_slept_asked (w : world) (rid : json) (k : nat) (s : state) :
  events (slept w k (asked w rid k s))
  = events s ++ [EGetStatus rid; ESleep POLL_INTERVAL].
Proof.
  unfold slept, asked. rewrite !events_issued, <- app_assoc. reflexivity.
Qed.

(** What a run of the loop looks like: [m] rounds that found the job
    pending within the deadline, then either the deadline check fails, or one
    more status call ends the loop. *)
Lemma polls_inv (w : world) (rid : json) (st : Q) k s res s' :
  polls w rid st k s res s' ->
  clock s = check_clock w st k ->
  exists m,
    (forall j, (k <= j < k + m)%nat ->
               verdict_of (status_reply w j) = Pending
               /\ check_clock w st j - st <= timeout)
    /\ stdout s' = stdout s
    /\ ((res = Return timed_out
         /\ events s' = events s ++ rounds rid m
         /\ clock s' = check_clock w st (k + m)
         /\ timeout < check_clock w st (k + m) - st)
        \/ (res = outcome_of (verdict_of (status_reply w (k + m)))
            /\ verdict_of (status_reply w (k + m)) <> Pending
            /\ check_clock w st (k + m) - st <= timeout
            /\ events s' = events s ++ rounds rid m ++ [EGetStatus rid]
            /\ clock s' = check_clock w st (k + m) + status_latency w (k + m))).
Proof.
  induction 1 as [k s Hc | k s Hc Hv | k s res s' Hc Hv Hrun IH]; intro Hclk.
  - exists 0%nat. rewrite Nat.add_0_r. split; [intros j Hj; lia|].
    split; [reflexivity|]. left. cbn [rounds]. rewrite app_nil_r.
    apply Qgtb_true in Hc. rewrite Hclk in Hc. auto.
  - exists 0%nat. rewrite Nat.add_0_r. split; [intros j Hj; lia|].
    split; [reflexivity|]. right. apply Qgtb_false in Hc.
    cbn [rounds app]. split; [reflexivity|]. split; [assumption|].
    split; [now rewrite Hclk in Hc|]. split; [apply events_issued|].
    cbn [clock asked issued]. now rewrite Hclk.
  - destruct IH as [m [Hpend [Hout Hend]]];
      [cbn [clock slept asked issued check_clock]; now rewrite Hclk|].
    exists (S m). replace (k + S m)%nat with (S k + m)%nat by lia.
    split; [|split].
    + intros j Hj. destruct (Nat.eq_dec j k) as [->|Hne].
      * split; [assumption|]. apply Qgtb_false in Hc. now rewrite Hclk in Hc.
      * apply Hpend. lia.
    + exact Hout.
    + rewrite events_slept_asked, <- !app_assoc in Hend. exact Hend.
Qed.

(** Every status call the loop makes is issued within the deadline. *)
Lemma poll_loop_deadline (w : world) (rid : json) (st : Q) (fuel : nat) :
  forall k s res s',
    poll_loop w rid st fuel k s = (res, s') ->
    exists suffix,
      trace s' = trace s ++ suffix
      /\ Forall (fun te => is_status (snd te) = true -> fst te - st <= timeout)
                suffix.
Proof.
  induction fuel as [|fuel IH]; intros k s res s' Hrun.
  - cbn in Hrun. inversion Hrun; subst. exists []. now rewrite app_nil_r.
  - rewrite poll_loop_step in Hrun.
    destruct (Qgtb (clock s - st) timeout) eqn:Hc.
    { inversion Hrun; subst. exists []. now rewrite app_nil_r. }
    apply Qgtb_false in Hc. cbv zeta in Hrun.
    assert (Hone : Forall (fun te => is_status (snd te) = true
                                     -> fst te - st <= timeout)
                          [(clock s, EGetStatus rid)]).
    { constructor; [intros _; exact Hc | constructor]. }
    destruct (verdict_of (status_reply w k)).
    + inversion Hrun; subst. now exists [(clock s, EGetStatus rid)].
    + inversion Hrun; subst. now exists [(clock s, EGetStatus rid)].
    + apply IH in Hrun. destruct Hrun as [suffix [Ht Hall]].
      exists ((clock s, EGetStatus rid)
              :: (clock s + status_latency w k, ESleep POLL_INTERVAL) :: suffix).
      split.
      * rewrite Ht. cbn [trace slept asked issued clock].
        rewrite <- !app_assoc. reflexivity.
      * constructor; [intros _; exact Hc|].
        constructor; [cbn; congruence | exact Hall].
    + inversion Hrun; subst. now exists [(clock s, EGetStatus rid)].
Qed.

(** ** The handler around the loop *)

Lemma handle_run (rt : runtime) (e : exn) (s : state) :
  handle rt e s = (Return (caught rt e), logged (caught_line rt e) s).
Proof.
  unfold handle, caught, caught_line.
  destruct (is_RequestException rt e); reflexivity.
Qed.

Lemma generate_image_polling rt key w req t0 fuel p rid :
  key_set key = true ->
  request_prompt req = Some p ->
  job_handle w = Some rid ->
  generate_image rt key w req t0 fuel
  = try_except (poll_loop w rid (t0 + submit_latency w) fuel 0 ;;;
                fetch_result w rid)
               (handle rt) (submitted w p t0).
Proof.
  intros Hkey Hp Hj. unfold generate_image. rewrite Hkey. cbn [negb].
  unfold request_prompt in Hp.
  destruct req as [[ | | | | | kvs]|]; try discriminate.
  destruct (lookup "prompt" kvs) as [v|] eqn:Hl; [|discriminate].
  destruct (truthy v) eqn:Hv; [|discriminate]. inversion Hp; subst v.
  unfold job_handle in Hj.
  destruct (submit_reply w) as [|code [d|]] eqn:Hs; try discriminate.
  destruct (http_error code) eqn:Hcode; [discriminate|].
  unfold handle_of in Hj.
  destruct d as [ | | | | | kvs']; try discriminate.
  destruct (lookup "request_id" kvs') as [v|] eqn:Hl'; [|discriminate].
  destruct (truthy v) eqn:Hv'; [|discriminate]. inversion Hj; subst v.
  unfold http_error in Hcode.
  cbv beta iota delta [try_except try_block bind request_json py_get ret
    http_call emit raise_for_status response_json time_time submitted issued
    initial_state fst snd clock trace stdout].
  rewrite Hl, Hv, Hs. cbv beta iota delta [negb fst snd].
  rewrite Hcode. cbv beta iota. rewrite Hl', Hv'. reflexivity.
Qed.

Lemma after_loop rt w rid st fuel (s : state) :
  try_except (poll_loop w rid st fuel 0 ;;; fetch_result w rid) (handle rt) s
  = match poll_loop w rid st fuel 0 s with
    | (Ok _, s1) => try_except (fetch_result w rid) (handle rt) s1
    | (Raise e, s1) => handle rt e s1
    | (Return r, s1) => (Return r, s1)
    | (OutOfFuel, s1) => (OutOfFuel, s1)
    end.
Proof.
  unfold try_except, bind.
  destruct (poll_loop w rid st fuel 0 s) as [[[]|e|r|] s1]; reflexivity.
Qed.

Lemma fetch_result_run rt w rid (s : state) :
  try_except (fetch_result w rid) (handle rt) s
  = match result_reply w with
    | NoResponse detail => handle rt (ConnectionError detail) (fetched w rid s)
    | HttpResponse code payload =>
        if http_error code then handle rt (HTTPError code) (fetched w rid s)
        else match payload with
             | None => handle rt JSONDecodeError (fetched w rid s)
             | Some result_data =>
                 match extract_image_url result_data with
                 | inr image_url =>
                     (Return (jsonify [("imageUrl"%string, image_url)]),
                      fetched w rid s)
                 | inl _ =>
                     (Return unparseable,
                      logged (LineWithValue "Unexpected result structure:"
                                            result_data)
                             (fetched w rid s))
                 end
             end
    end.
Proof.
  cbv beta iota delta [try_except fetch_result bind http_call emit
    raise_for_status response_json raise ret return_ print fetched issued
    http_error logged unparseable].
  destruct (result_reply w) as [detail|code [d|]];
    cbv beta iota delta [fst snd]; try reflexivity.
  - destruct ((400 <=? code) && (code <? 600))%Z; [reflexivity|].
    destruct (extract_image_url d); reflexivity.
  - destruct ((400 <=? code) && (code <? 600))%Z; reflexivity.
Qed.

Lemma early_key rt key w req t0 fuel :
  key_set key = false ->
  generate_image rt key w req t0 fuel
  = (Return (err "Server is missing MODEL_ACCESS_KEY environment variable." 500),
     initial_state t0).
Proof. intros Hkey. unfold generate_image. rewrite Hkey. reflexivity. Qed.

Lemma early_prompt rt key w req t0 fuel :
  key_set key = true ->
  request_prompt req = None ->
  generate_image rt key w req t0 fuel
  = match req with
    | JsonBody (JObj _) =>
        (Return (err "No prompt provided." 400), initial_state t0)
    | JsonBody _ => handle rt (AttributeError "get") (initial_state t0)
    | Unreadable code => handle rt (WerkzeugHTTPException code) (initial_state t0)
    end.
Proof.
  intros Hkey Hp. unfold generate_image. rewrite Hkey. cbn [negb].
  cbv beta iota delta [try_except try_block bind request_json py_get ret raise].
  destruct req as [[ | | | | | kvs]|code]; try reflexivity.
  unfold request_prompt in Hp.
  destruct (lookup "prompt" kvs) as [v|]; [|reflexivity].
  destruct (truthy v); [discriminate|reflexivity].
Qed.

Lemma early_submit rt key w req t0 fuel p :
  key_set key = true ->
  request_prompt req = Some p ->
  job_handle w = None ->
  generate_image rt key w req t0 fuel
  = match submit_reply w with
    | NoResponse detail => handle rt (ConnectionError detail) (submitted w p t0)
    | HttpResponse code payload =>
        if http_error code then handle rt (HTTPError code) (submitted w p t0)
        else match payload with
             | None => handle rt JSONDecodeError (submitted w p t0)
             | Some (JObj _) =>
                 (Return (err "Failed to submit job to DO." 500),
                  submitted w p t0)
             | Some _ => handle rt (AttributeError "get") (submitted w p t0)
             end
    end.
Proof.
  intros Hkey Hp Hj. unfold generate_image. rewrite Hkey. cbn [negb].
  unfold request_prompt in Hp.
  destruct req as [[ | | | | | kvs]|]; try discriminate.
  destruct (lookup "prompt" kvs) as [v|] eqn:Hl; [|discriminate].
  destruct (truthy v) eqn:Hv; [|discriminate]. inversion Hp; subst v.
  unfold job_handle in Hj.
  cbv beta iota delta [try_except try_block bind request_json py_get ret
    http_call emit raise_for_status response_json time_time submitted issued
    initial_state fst snd clock trace stdout raise http_error].
  rewrite Hl, Hv. cbv beta iota delta [negb].
  destruct (submit_reply w) as [detail|code payload]; [reflexivity|].
  cbv beta iota delta [fst snd]. unfold http_error in Hj.
  destruct ((400 <=? code) && (code <? 600))%Z; [reflexivity|].
  destruct payload as [[ | | | | | kvs']|]; try reflexivity.
  unfold handle_of in Hj.
  destruct (lookup "request_id" kvs') as [v|]; [|reflexivity].
  destruct (truthy v); [discriminate|reflexivity].
Qed.

(** ** Counting the calls of a run *)

Lemma filter_status_rounds (rid : json) (m : nat) :
  List.length (filter is_status (rounds rid m)) = m.
Proof. induction m as [|m IH]; cbn; [reflexivity | now rewrite IH]. Qed.

Lemma filter_fetch_rounds (rid : json) (m : nat) :
  filter is_fetch (rounds rid m) = [].
Proof. induction m as [|m IH]; cbn; [reflexivity | exact IH]. Qed.

Lemma filter_call_rounds (rid : json) (m : nat) :
  List.length (filter is_call (rounds rid m)) = m.
Proof. induction m as [|m IH]; cbn; [reflexivity | now rewrite IH]. Qed.

Lemma events_logged (l : stdout_line) (s : state) :
  events (logged l s) = events s.
Proof. reflexivity. Qed.

Lemma events_submitted (w : world) (p : json) (t0 : Q) :
  events (submitted w p t0) = [EPost p].
Proof. reflexivity. Qed.

(** A run that used up its fuel found the job pending every time. *)
Lemma poll_loop_out_of_fuel (w : world) (rid : json) (st : Q) (fuel : nat) :
  forall k s s',
    poll_loop w rid st fuel k s = (OutOfFuel, s') ->
    clock s = check_clock w st k ->
    (forall j, (k <= j < k + fuel)%nat ->
               verdict_of (status_reply w j) = Pending
               /\ check_clock w st j - st <= timeout)
    /\ events s' = events s ++ rounds rid fuel
    /\ stdout s' = stdout s.
Proof.
  induction fuel as [|fuel IH]; intros k s s' Hrun Hclk.
  - cbn in Hrun. inversion Hrun; subst. cbn [rounds]. rewrite app_nil_r.
    repeat split; intros; lia.
  - rewrite poll_loop_step in Hrun.
    destruct (Qgtb (clock s - st) timeout) eqn:Hc; [discriminate|].
    cbv zeta in Hrun.
    destruct (verdict_of (status_reply w k)) eqn:Hv; try discriminate.
    apply IH in Hrun;
      [|cbn [clock slept asked issued check_clock]; now rewrite Hclk].
    destruct Hrun as [Hpend [Hev Hout]].
    split; [|split].
    + intros j Hj. destruct (Nat.eq_dec j k) as [->|Hne].
      * split; [exact Hv|]. apply Qgtb_false in Hc. now rewrite Hclk in Hc.
      * apply Hpend. lia.
    + rewrite Hev, events_slept_asked, <- app_assoc. reflexivity.
    + exact Hout.
Qed.

(** Every run of a request that got a job handle. *)
Lemma polling_run rt key w req t0 fuel p rid res s' :
  key_set key = true ->
  request_prompt req = Some p ->
  job_handle w = Some rid ->
  generate_image rt key w req t0 fuel = (res, s') ->
  exists m,
    (forall j, (j < m)%nat ->
               verdict_of (status_reply w j) = Pending
               /\ check_clock w (t0 + submit_latency w) j
                  - (t0 + submit_latency w) <= timeout)
    /\ polling_end rt w p rid (t0 + submit_latency w) fuel m res s'.
Proof.
  intros Hkey Hp Hj Hrun.
  rewrite (generate_image_polling rt key w req t0 fuel p rid Hkey Hp Hj),
    after_loop in Hrun.
  set (st := t0 + submit_latency w) in *.
  assert (Hclk : clock (submitted w p t0) = check_clock w st 0) by reflexivity.
  destruct (poll_loop w rid st fuel 0 (submitted w p t0)) as [r1 s1] eqn:Hloop.
  destruct r1 as [[]|e|r|].
  - apply poll_loop_polls in Hloop; [|discriminate].
    destruct (polls_inv _ _ _ _ _ _ _ Hloop Hclk) as [m [Hpend [Hout Hend]]].
    cbn [Nat.add] in *. exists m. split; [intros j Hj'; apply Hpend; lia|].
    destruct Hend as [[Hres _]|[Hres [Hnp [Hchk [Hev _]]]]]; [discriminate|].
    destruct (verdict_of (status_reply w m)) eqn:Hv; try discriminate.
    rewrite fetch_result_run in Hrun.
    assert (Hfe : res = Return (fst (fetch_end rt (result_reply w)))
                  /\ events s' = events (fetched w rid s1)
                  /\ stdout s' = stdout s1 ++ snd (fetch_end rt (result_reply w))).
    { unfold fetch_end. destruct (result_reply w) as [d|code [body|]].
      - rewrite handle_run in Hrun. inversion Hrun; subst. now repeat split.
      - destruct (http_error code).
        + rewrite handle_run in Hrun. inversion Hrun; subst. now repeat split.
        + destruct (extract_image_url body); inversion Hrun; subst;
            repeat split; cbn [snd stdout logged]; now rewrite ?app_nil_r.
      - destruct (http_error code); rewrite handle_run in Hrun;
          inversion Hrun; subst; now repeat split. }
    destruct Hfe as [-> [Hev' Hout']].
    apply end_fetched; [exact Hchk | exact Hv | |].
    + unfold fetched in Hev'. rewrite events_issued, Hev in Hev'.
      rewrite Hev', events_submitted. cbn [app]. rewrite <- app_assoc.
      reflexivity.
    + rewrite Hout', Hout. reflexivity.
  - apply poll_loop_polls in Hloop; [|discriminate].
    destruct (polls_inv _ _ _ _ _ _ _ Hloop Hclk) as [m [Hpend [Hout Hend]]].
    cbn [Nat.add] in *. exists m. split; [intros j Hj'; apply Hpend; lia|].
    destruct Hend as [[Hres _]|[Hres [Hnp [Hchk [Hev _]]]]]; [discriminate|].
    destruct (verdict_of (status_reply w m)) eqn:Hv; try discriminate.
    inversion Hres; subst e0. rewrite handle_run in Hrun.
    inversion Hrun; subst. apply end_broken; [exact Hchk | exact Hv | |].
    + rewrite events_logged, Hev, events_submitted. reflexivity.
    + cbn [stdout logged]. rewrite Hout. reflexivity.
  - apply poll_loop_polls in Hloop; [|discriminate].
    destruct (polls_inv _ _ _ _ _ _ _ Hloop Hclk) as [m [Hpend [Hout Hend]]].
    cbn [Nat.add] in *. exists m. split; [intros j Hj'; apply Hpend; lia|].
    inversion Hrun; subst.
    destruct Hend as [[Hres [Hev [Hc Hlt]]]|[Hres [Hnp [Hchk [Hev _]]]]].
    + inversion Hres; subst. apply end_timeout; [exact Hlt | exact Hc | | exact Hout].
      rewrite Hev, events_submitted. reflexivity.
    + destruct (verdict_of (status_reply w m)) eqn:Hv; try discriminate.
      inversion Hres; subst. apply end_failed; [exact Hchk | exact Hv | | exact Hout].
      rewrite Hev, events_submitted. reflexivity.
  - destruct (poll_loop_out_of_fuel _ _ _ _ _ _ _ Hloop Hclk)
      as [Hpend [Hev Hout]].
    cbn [Nat.add] in *. exists fuel. split; [intros j Hj'; apply Hpend; lia|].
    inversion Hrun; subst. apply end_fuel; [reflexivity | | exact Hout].
    rewrite Hev, events_submitted. reflexivity.
Qed.

Lemma caught_is_error (rt : runtime) (e : exn) :
  (is_RequestException rt e = true /\ is_error (caught rt e) 502)
  \/ (is_RequestException rt e = false /\ is_error (caught rt e) 500).
Proof.
  unfold caught, is_error.
  destruct (is_RequestException rt e); [left|right]; split;
    try reflexivity; eexists; reflexivity.
Qed.

(** A request that does not get as far as polling: at most the submit call
    is made, and the answer is an error. *)
Lemma early_run rt key w req t0 fuel res s' :
  key_set key = false \/ request_prompt req = None \/ job_handle w = None ->
  generate_image rt key w req t0 fuel = (res, s') ->
  (exists r code, res = Return r /\ is_error r code
                  /\ (code = 400 \/ code = 500 \/ code = 502)%Z)
  /\ (events s' = [] \/ exists p, events s' = [EPost p]).
Proof.
  intros Hearly Hrun.
  destruct (key_set key) eqn:Hkey.
  2:{ rewrite (early_key rt key w req t0 fuel Hkey) in Hrun.
      inversion Hrun; subst. split; [|left; reflexivity].
      eexists. exists 500%Z. split; [reflexivity|].
      split; [eexists; reflexivity | auto]. }
  destruct (request_prompt req) as [p|] eqn:Hp.
  2:{ rewrite (early_prompt rt key w req t0 fuel Hkey Hp) in Hrun.
      split.
      - destruct req as [[ | b | q | str | xs | kvs]|code];
          try (rewrite handle_run in Hrun; inversion Hrun; subst;
               eexists; exists 500%Z; split; [reflexivity|];
               split; [eexists; reflexivity | auto]).
        inversion Hrun; subst. eexists. exists 400%Z.
        split; [reflexivity|]. split; [eexists; reflexivity | auto].
      - left. destruct req as [[ | b | q | str | xs | kvs]|code];
          try rewrite handle_run in Hrun; inversion Hrun; subst; reflexivity. }
  destruct (job_handle w) as [rid|] eqn:Hj.
  { destruct Hearly as [H|[H|H]]; discriminate. }
  rewrite (early_submit rt key w req t0 fuel p Hkey Hp Hj) in Hrun.
  assert (Hcaught : forall e, handle rt e (submitted w p t0) = (res, s') ->
            (exists r code, res = Return r /\ is_error r code
                            /\ (code = 400 \/ code = 500 \/ code = 502)%Z)
            /\ (events s' = [] \/ exists p, events s' = [EPost p])).
  { intros e He. rewrite handle_run in He. inversion He; subst.
    split; [|right; exists p; reflexivity].
    destruct (caught_is_error rt e) as [[_ H]|[_ H]];
      eexists; eexists; (split; [reflexivity|]); (split; [exact H|]); auto. }
  destruct (submit_reply w) as [detail|code payload]; [eauto|].
  destruct (http_error code); [eauto|].
  destruct payload as [[ | b | q | str | xs | kvs]|]; eauto.
  inversion Hrun; subst. split; [|right; exists p; reflexivity].
  eexists. exists 500%Z. split; [reflexivity|].
  split; [eexists; reflexivity | auto].
Qed.

Lemma no_fetch_in_rounds (rid r : json) (m : nat) :
  ~ In (EGetResult r) (rounds rid m).
Proof.
  induction m as [|m IH]; cbn; [tauto|].
  intros [H|[H|H]]; [discriminate | discriminate | exact (IH H)].
Qed.

Lemma fetch_calls_app (s : state) (l1 l2 : list event) :
  events s = l1 ++ l2 ->
  fetch_calls s = (List.length (filter is_fetch l1)
                   + List.length (filter is_fetch l2))%nat.
Proof.
  intros H. unfold fetch_calls. now rewrite H, filter_app, length_app.
Qed.

Lemma status_calls_app (s : state) (l1 l2 : list event) :
  events s = l1 ++ l2 ->
  status_calls s = (List.length (filter is_status l1)
                    + List.length (filter is_status l2))%nat.
Proof.
  intros H. unfold status_calls. now rewrite H, filter_app, length_app.
Qed.

(** Counting the calls at each end of a polling request. *)
Lemma polling_end_calls rt w p rid st fuel m res s' :
  polling_end rt w p rid st fuel m res s' ->
  (fetch_calls s' = 0%nat /\ (status_calls s' = m \/ status_calls s' = S m))
  \/ (fetch_calls s' = 1%nat /\ status_calls s' = S m
      /\ res = Return (fst (fetch_end rt (result_reply w)))
      /\ stdout s' = snd (fetch_end rt (result_reply w))
      /\ verdict_of (status_reply w m) = Done).
Proof.
  intros Hend.
  assert (Hf : forall l, List.length (filter is_fetch (EPost p :: rounds rid m ++ l))
                         = List.length (filter is_fetch l)).
  { intros l. cbn [filter is_fetch].
    now rewrite filter_app, filter_fetch_rounds. }
  assert (Hs : forall l, List.length (filter is_status (EPost p :: rounds rid m ++ l))
                         = (m + List.length (filter is_status l))%nat).
  { intros l. cbn [filter is_status].
    now rewrite filter_app, length_app, filter_status_rounds. }
  unfold fetch_calls, status_calls.
  pose proof (Hf []) as Hf0. pose proof (Hs []) as Hs0.
  rewrite app_nil_r in Hf0, Hs0.
  inversion Hend as [s0 Hm Hev Hout | s0 Hlt Hc Hev Hout | s0 Hchk Hv Hev Hout
                     | e s0 Hchk Hv Hev Hout | s0 Hchk Hv Hev Hout]; subst;
    rewrite Hev.
  - rewrite Hf0, Hs0. left. split; [reflexivity | left; cbn; lia].
  - rewrite Hf0, Hs0. left. split; [reflexivity | left; cbn; lia].
  - rewrite Hf, Hs. left. split; [reflexivity | right; cbn; lia].
  - rewrite Hf, Hs. left. split; [reflexivity | right; cbn; lia].
  - rewrite Hf, Hs. right. repeat split; try assumption; cbn; lia.
Qed.

(** Once the fetch call is made, its reply alone decides the answer. *)
Lemma fetch_decides rt key w req t0 fuel res s' :
  generate_image rt key w req t0 fuel = (res, s') ->
  fetch_calls s' <> 0%nat ->
  res = Return (fst (fetch_end rt (result_reply w)))
  /\ stdout s' = snd (fetch_end rt (result_reply w)).
Proof.
  intros Hrun Hfetch.
  destruct (key_set key) eqn:Hkey;
    [destruct (request_prompt req) as [p|] eqn:Hp;
     [destruct (job_handle w) as [rid|] eqn:Hj|]|].
  - destruct (polling_run _ _ _ _ _ _ _ _ _ _ Hkey Hp Hj Hrun) as [m [_ Hend]].
    destruct (polling_end_calls _ _ _ _ _ _ _ _ _ Hend)
      as [[H0 _]|[_ [_ [Hres [Hout _]]]]]; [congruence | auto].
  - exfalso. apply Hfetch.
    destruct (early_run rt key w req t0 fuel res s') as [_ [He|[q He]]];
      auto; unfold fetch_calls; rewrite He; reflexivity.
  - exfalso. apply Hfetch.
    destruct (early_run rt key w req t0 fuel res s') as [_ [He|[q He]]];
      auto; unfold fetch_calls; rewrite He; reflexivity.
  - exfalso. apply Hfetch.
    destruct (early_run rt key w req t0 fuel res s') as [_ [He|[q He]]];
      auto; unfold fetch_calls; rewrite He; reflexivity.
Qed.

(** The subscripts of the handler find a URL exactly when the nested path
    of the specification resolves. *)
Lemma extract_image_url_iff (result_data u : json) :
  extract_image_url result_data = inr u <-> path_resolves result_data u.
Proof.
  unfold extract_image_url, path_resolves, and_then, subscript_key, subscript_0.
  split.
  - intros H.
    destruct result_data as [ | | | | | kvs1]; try discriminate.
    destruct (lookup "result" kvs1) as [[ | | | | | kvs2]|] eqn:H1;
      try discriminate.
    destruct (lookup "output" kvs2) as [[ | | | | | kvs3]|] eqn:H2;
      try discriminate.
    destruct (lookup "images" kvs3) as [[ | | | str | xs | kvs]|] eqn:H3;
      try discriminate.
    + destruct str; discriminate.
    + destruct xs as [|[ | | | | | kvs4] rest]; try discriminate.
      destruct (lookup "url" kvs4) as [v|] eqn:H4; [|discriminate].
      inversion H; subst v.
      exists kvs1, kvs2, kvs3, kvs4, rest. auto.
  - intros [kvs1 [kvs2 [kvs3 [kvs4 [rest [-> [H1 [H2 [H3 H4]]]]]]]]].
    now rewrite H1, H2, H3, H4.
Qed.

Lemma calls_of_events (s : state) (p rid : json) (m : nat) (l : list event) :
  events s = EPost p :: rounds rid m ++ l ->
  status_calls s = (m + List.length (filter is_status l))%nat
  /\ fetch_calls s = List.length (filter is_fetch l).
Proof.
  intros H. unfold status_calls, fetch_calls. rewrite H.
  cbn [filter is_status is_fetch].
  now rewrite !filter_app, length_app, filter_status_rounds, filter_fetch_rounds.
Qed.

Lemma calls_of_rounds (s : state) (p rid : json) (m : nat) :
  events s = EPost p :: rounds rid m ->
  status_calls s = m /\ fetch_calls s = 0%nat.
Proof.
  intros H. rewrite <- (app_nil_r (rounds rid m)) in H.
  destruct (calls_of_events s p rid m [] H) as [Hs Hf].
  cbn in Hs, Hf. split; [lia | exact Hf].
Qed.

(** What [verdict_of] makes of a well-formed status response. *)
Lemma verdict_of_status (code : Z) (kvs : list (string * json)) (st : string) :
  http_error code = false ->
  lookup "status" kvs = Some (JStr st) ->
  verdict_of (HttpResponse code (Some (JObj kvs)))
  = if String.eqb st "COMPLETE" then Done
    else if (String.eqb st "FAILED" || String.eqb st "ERROR")%bool then Failed
    else Pending.
Proof.
  intros Hcode Hst. unfold verdict_of. unfold http_error in Hcode.
  rewrite Hcode, Hst. cbn [json_eq_str json_in_strs existsb].
  destruct (String.eqb st "COMPLETE"); [reflexivity|].
  now rewrite orb_false_r.
Qed.

(** Each round takes at least the poll interval. *)
Lemma check_clock_lower (w : world) (st : Q) :
  wf_world w ->
  forall k, st + POLL_INTERVAL * inject_Z (Z.of_nat k) <= check_clock w st k.
Proof.
  intros Hwf. unfold POLL_INTERVAL.
  induction k as [|k IH].
  - change (inject_Z (Z.of_nat 0)) with 0. cbn [check_clock]. lra.
  - cbn [check_clock]. unfold POLL_INTERVAL.
    rewrite Nat2Z.inj_succ, <- Z.add_1_r, inject_Z_plus.
    change (inject_Z 1) with 1. destruct (Hwf k) as [Hl Ho]. lra.
Qed.

Lemma rounds_within_deadline (w : world) (st : Q) (k : nat) :
  wf_world w ->
  check_clock w st k - st <= timeout ->
  (k <= 40)%nat.
Proof.
  intros Hwf Hle. pose proof (check_clock_lower w st Hwf k) as Hlow.
  unfold timeout, POLL_INTERVAL in *.
  destruct (le_gt_dec k 40) as [H|H]; [exact H|exfalso].
  assert (Hk : inject_Z 41 <= inject_Z (Z.of_nat k)).
  { rewrite <- Zle_Qle. lia. }
  change (inject_Z 41) with 41 in Hk. lra.
Qed.

(** The fetch step adds its one call to the trace; an [except] clause
    adds nothing. *)
Lemma fetch_trace rt w rid (s : state) res s' :
  try_except (fetch_result w rid) (handle rt) s = (res, s') ->
  trace s' = trace s ++ [(clock s, EGetResult rid)].
Proof.
  rewrite fetch_result_run. intros H.
  destruct (result_reply w) as [d|code [data|]];
    [|destruct (http_error code); [|destruct (extract_image_url data)]
     |destruct (http_error code)];
    try rewrite handle_run in H; inversion H; subst; reflexivity.
Qed.

Lemma status_stamps rt key w req t0 fuel res s' :
  generate_image rt key w req t0 fuel = (res, s') ->
  forall t rid,
    In (t, EGetStatus rid) (trace s') ->
    t - (t0 + submit_latency w) <= timeout.
Proof.
  intros Hrun t r Hin.
  assert (Hev : In (EGetStatus r) (events s')).
  { unfold events. change (EGetStatus r) with (snd (t, EGetStatus r)).
    now apply in_map. }
  destruct (key_set key) eqn:Hkey;
    [destruct (request_prompt req) as [p|] eqn:Hp;
     [destruct (job_handle w) as [rid|] eqn:Hj|]|].
  2-4: exfalso;
    destruct (early_run rt key w req t0 fuel res s') as [_ [He|[q He]]]; auto;
    rewrite He in Hev; cbn in Hev; intuition discriminate.
  rewrite (generate_image_polling rt key w req t0 fuel p rid Hkey Hp Hj),
    after_loop in Hrun.
  destruct (poll_loop w rid (t0 + submit_latency w) fuel 0 (submitted w p t0))
    as [r1 s1] eqn:Hloop.
  destruct (poll_loop_deadline _ _ _ _ _ _ _ _ Hloop) as [suffix [Ht Hall]].
  assert (Hs' : trace s' = trace s1
                \/ trace s' = trace s1 ++ [(clock s1, EGetResult rid)]).
  { destruct r1 as [[]|e|r0|].
    - right. exact (fetch_trace _ _ _ _ _ _ Hrun).
    - left. rewrite handle_run in Hrun. inversion Hrun; subst. reflexivity.
    - left. inversion Hrun; subst. reflexivity.
    - left. inversion Hrun; subst. reflexivity. }
  assert (Hsuf : In (t, EGetStatus r) suffix).
  { destruct Hs' as [Hs'|Hs']; rewrite Hs', Ht in Hin;
      cbn [trace submitted issued initial_state app] in Hin.
    - destruct Hin as [Hin|Hin]; [discriminate | exact Hin].
    - destruct Hin as [Hin|Hin]; [discriminate|].
      apply in_app_or in Hin. destruct Hin as [Hin|[Hin|[]]];
        [exact Hin | discriminate]. }
  rewrite Forall_forall in Hall. exact (Hall _ Hsuf eq_refl).
Qed.

(** The submit call's own duration is outside the window: the loop only
    looks at the time elapsed since it was entered. *)
Lemma poll_loop_shift (w : world) (d : Q) (rid : json) (fuel : nat) :
  forall k s1 s2 st1 st2,
    clock s1 - st1 == clock s2 - st2 ->
    events s1 = events s2 ->
    stdout s1 = stdout s2 ->
    fst (poll_loop (with_submit_latency w d) rid st1 fuel k s1)
    = fst (poll_loop w rid st2 fuel k s2)
    /\ events (snd (poll_loop (with_submit_latency w d) rid st1 fuel k s1))
       = events (snd (poll_loop w rid st2 fuel k s2))
    /\ stdout (snd (poll_loop (with_submit_latency w d) rid st1 fuel k s1))
       = stdout (snd (poll_loop w rid st2 fuel k s2)).
Proof.
  induction fuel as [|fuel IH]; intros k s1 s2 st1 st2 Hclk Hev Hout.
  - cbn. auto.
  - rewrite !poll_loop_step.
    rewrite (Qgtb_compat _ _ timeout Hclk).
    destruct (Qgtb (clock s2 - st2) timeout); [cbn; auto|].
    cbv zeta. cbn [status_reply with_submit_latency].
    destruct (verdict_of (status_reply w k));
      try (cbn [fst snd]; unfold asked; rewrite !events_issued, Hev;
           cbn [stdout issued]; auto).
    apply IH.
    + cbn [clock slept asked issued status_latency oversleep
           with_submit_latency]. lra.
    + rewrite !events_slept_asked, Hev. reflexivity.
    + exact Hout.
Qed.

Lemma generate_image_submit_latency rt key w req t0 fuel (d : Q) :
  fst (generate_image rt key (with_submit_latency w d) req t0 fuel)
  = fst (generate_image rt key w req t0 fuel)
  /\ events (snd (generate_image rt key (with_submit_latency w d) req t0 fuel))
     = events (snd (generate_image rt key w req t0 fuel)).
Proof.
  destruct (key_set key) eqn:Hkey;
    [destruct (request_prompt req) as [p|] eqn:Hp;
     [destruct (job_handle w) as [rid|] eqn:Hj|]|].
  - rewrite (generate_image_polling rt key (with_submit_latency w d) req t0 fuel
               p rid Hkey Hp Hj),
      (generate_image_polling rt key w req t0 fuel p rid Hkey Hp Hj),
      !after_loop.
    cbn [submit_latency with_submit_latency].
    destruct (poll_loop_shift w d rid fuel 0
                (submitted (with_submit_latency w d) p t0) (submitted w p t0)
                (t0 + d) (t0 + submit_latency w)) as [Hr [He Ho]];
      [cbn [clock submitted issued initial_state submit_latency
            with_submit_latency]; lra
      | reflexivity | reflexivity |].
    destruct (poll_loop (with_submit_latency w d) rid (t0 + d) fuel 0
                (submitted (with_submit_latency w d) p t0)) as [r1 s1].
    destruct (poll_loop w rid (t0 + submit_latency w) fuel 0
                (submitted w p t0)) as [r2 s2].
    cbn [fst snd] in Hr, He, Ho. subst r2.
    destruct r1 as [[]|e|r|]; try (cbn [fst snd]; auto).
    + rewrite !fetch_result_run. cbn [result_reply with_submit_latency].
      unfold fetched.
      destruct (result_reply w) as [detail|code [data|]];
        [|destruct (http_error code); [|destruct (extract_image_url data)]
         |destruct (http_error code)];
        rewrite ?handle_run; cbn [fst snd]; rewrite ?events_logged;
        rewrite !events_issued, He; auto.
    + rewrite !handle_run. cbn [fst snd]. rewrite !events_logged. auto.
  - rewrite (early_submit rt key (with_submit_latency w d) req t0 fuel p
               Hkey Hp Hj),
      (early_submit rt key w req t0 fuel p Hkey Hp Hj).
    cbn [submit_reply with_submit_latency].
    destruct (submit_reply w) as [detail|code [[ | | | | | kvs]|]];
      [|destruct (http_error code)..];
      rewrite ?handle_run; cbn [fst snd]; rewrite ?events_logged; auto.
  - rewrite (early_prompt rt key (with_submit_latency w d) req t0 fuel Hkey Hp),
      (early_prompt rt key w req t0 fuel Hkey Hp). auto.
  - rewrite (early_key rt key (with_submit_latency w d) req t0 fuel Hkey),
      (early_key rt key w req t0 fuel Hkey). auto.
Qed.

Lemma is_error_status (r : response) (code : Z) :
  is_error r code -> status r = code.
Proof. intros [msg ->]. reflexivity. Qed.

Lemma is_success_status (r : response) : is_success r -> status r = 200%Z.
Proof. intros [u ->]. reflexivity. Qed.

Lemma fetch_end_shape (rt : runtime) (r : reply) :
  is_success (fst (fetch_end rt r))
  \/ is_error (fst (fetch_end rt r)) 500
  \/ is_error (fst (fetch_end rt r)) 502.
Proof.
  unfold fetch_end.
  assert (Hc : forall e, is_error (caught rt e) 500 \/ is_error (caught rt e) 502).
  { intros e. destruct (caught_is_error rt e) as [[_ H]|[_ H]]; auto. }
  destruct r as [d|code [data|]]; cbn [fst]; [right; apply Hc | |].
  - destruct (http_error code); [right; apply Hc|].
    destruct (extract_image_url data) as [e|u]; cbn [fst].
    + right. left. eexists. reflexivity.
    + left. eexists. reflexivity.
  - destruct (http_error code); right; apply Hc.
Qed.

(** Every answer of the handler is the success body or an error body with
    one of four status codes. *)
Lemma answer_shape rt key w req t0 fuel r s' :
  generate_image rt key w req t0 fuel = (Return r, s') ->
  is_success r
  \/ exists code, is_error r code /\ In code [400; 500; 502; 504]%Z.
Proof.
  intros Hrun.
  destruct (key_set key) eqn:Hkey;
    [destruct (request_prompt req) as [p|] eqn:Hp;
     [destruct (job_handle w) as [rid|] eqn:Hj|]|].
  2-4: right;
    destruct (early_run rt key w req t0 fuel (Return r) s') as [[r0 [c [Hr [He Hc]]]] _];
    auto; inversion Hr; subst r0; exists c; split; [exact He|];
    cbn; intuition.
  destruct (polling_run _ _ _ _ _ _ _ _ _ _ Hkey Hp Hj Hrun) as [m [_ Hend]].
  inversion Hend as [s0 Hm' Hev Hout | s0 Hlt Hclk Hev Hout | s0 Hc Hv Hev Hout
                     | e s0 Hc Hv Hev Hout | s0 Hc Hv Hev Hout]; subst.
  - right. exists 504%Z. split; [eexists; reflexivity | cbn; intuition].
  - right. exists 500%Z. split; [eexists; reflexivity | cbn; intuition].
  - right. destruct (caught_is_error rt e) as [[_ H]|[_ H]];
      [exists 502%Z | exists 500%Z]; (split; [exact H | cbn; intuition]).
  - destruct (fetch_end_shape rt (result_reply w)) as [H|[H|H]];
      [left; exact H | right; exists 500%Z | right; exists 502%Z];
      (split; [exact H | cbn; intuition]).
Qed.

(** The 504 answer comes from the deadline check alone, and that check
    fails only right after a sleep. *)
Lemma timeout_after_sleep rt key w req t0 fuel r s' :
  generate_image rt key w req t0 fuel = (Return r, s') ->
  status r = 504%Z ->
  exists p rid m,
    events s' = EPost p :: rounds rid (S m)
    /\ clock s' = check_clock w (t0 + submit_latency w) (S m)
    /\ check_clock w (t0 + submit_latency w) m - (t0 + submit_latency w)
       <= timeout
    /\ timeout < clock s' - (t0 + submit_latency w).
Proof.
  intros Hrun H504.
  destruct (key_set key) eqn:Hkey;
    [destruct (request_prompt req) as [p|] eqn:Hp;
     [destruct (job_handle w) as [rid|] eqn:Hj|]|].
  2-4: exfalso;
    destruct (early_run rt key w req t0 fuel (Return r) s') as [[r0 [c [Hr [He Hc]]]] _];
    auto; inversion Hr; subst r0; apply is_error_status in He; lia.
  destruct (polling_run _ _ _ _ _ _ _ _ _ _ Hkey Hp Hj Hrun) as [m [Hm Hend]].
  inversion Hend as [s0 Hm' Hev Hout | s0 Hlt Hclk Hev Hout | s0 Hc Hv Hev Hout
                     | e s0 Hc Hv Hev Hout | s0 Hc Hv Hev Hout]; subst.
  - destruct m as [|m].
    { exfalso. cbn [check_clock] in Hlt. unfold timeout in Hlt. lra. }
    exists p, rid, m. destruct (Hm m) as [_ Hc]; [lia|].
    rewrite Hclk. auto.
  - discriminate H504.
  - exfalso. destruct (caught_is_error rt e) as [[_ H]|[_ H]];
      apply is_error_status in H; lia.
  - exfalso. destruct (fetch_end_shape rt (result_reply w)) as [H|[H|H]];
      [apply is_success_status in H | apply is_error_status in H
       | apply is_error_status in H]; lia.
Qed.

Lemma last_rounds (rid : json) (m : nat) (e d : event) :
  last (e :: rounds rid (S m)) d = ESleep POLL_INTERVAL.
Proof.
  revert e. induction m as [|m IH]; intros e; [reflexivity|].
  change (rounds rid (S (S m)))
    with (EGetStatus rid :: ESleep POLL_INTERVAL :: rounds rid (S m)).
  change (last (e :: EGetStatus rid :: ESleep POLL_INTERVAL :: rounds rid (S m)) d)
    with (last (ESleep POLL_INTERVAL :: rounds rid (S m)) d).
  apply IH.
Qed.

Lemma no_prompt_trace rt key w req t0 fuel res s' :
  key_set key = true ->
  request_prompt req = None ->
  generate_image rt key w req t0 fuel = (res, s') ->
  trace s' = [].
Proof.
  intros Hkey Hp Hrun.
  rewrite (early_prompt rt key w req t0 fuel Hkey Hp) in Hrun.
  destruct req as [[ | b | q | str | xs | kvs]|code];
    try rewrite handle_run in Hrun; inversion Hrun; subst; reflexivity.
Qed.

(** ** Sample runs *)

Example run_two_polls_then_complete :
  let run := generate_image sample_runtime sample_key
                            (sample_world 2 "COMPLETE") sample_request 0 42 in
  fst run = Return (jsonify [("imageUrl"%string, JStr "https://x/y.png")])
  /\ events (snd run)
     = [EPost (JStr "a cat");
        EGetStatus (JStr "job-1"); ESleep 3;
        EGetStatus (JStr "job-1"); ESleep 3;
        EGetStatus (JStr "job-1"); EGetResult (JStr "job-1")].
Proof. split; reflexivity. Qed.

Example run_stuck_job :
  let run := generate_image sample_runtime sample_key stuck_world
                            sample_request 0 42 in
  fst run = Return timed_out
  /\ status_calls (snd run) = 35%nat
  /\ clock (snd run) == 247 # 2.
Proof. repeat split; vm_compute; reflexivity. Qed.

Example run_images_is_a_string :
  extract_image_url
    (JObj [("result"%string,
            JObj [("output"%string, JObj [("images"%string, JStr "abc")])])])
  = inl TypeError.
Proof. reflexivity. Qed.

Example run_body_is_a_list :
  fst (generate_image sample_runtime sample_key (sample_world 2 "COMPLETE")
                      (JsonBody (JArr [JStr "a cat"])) 0 42)
  = Return (err "An internal server error occurred: object has no attribute 'get'"
                500).
Proof. reflexivity. Qed.

(** * The claims *)

(** C6. If the credential [MODEL_ACCESS_KEY] is absent (unset, or set to the
    empty string), the handler answers status 500 with a JSON [error] body
    and makes no outbound call at all: the trace of the run is empty. *)
Theorem C6_missing_key rt key w req t0 fuel :
  key_set key = false ->
  exists s',
    generate_image rt key w req t0 fuel
    = (Return (err "Server is missing MODEL_ACCESS_KEY environment variable." 500),
       s')
    /\ trace s' = []
    /\ outbound_calls s' = 0%nat.
Proof.
  intros Hkey. exists (initial_state t0).
  rewrite (early_key rt key w req t0 fuel Hkey). repeat split.
Qed.

Lemma C6_missing_key_witness :
  exists s',
    generate_image sample_runtime None (sample_world 2 "COMPLETE")
                   sample_request 0 42
    = (Return (err "Server is missing MODEL_ACCESS_KEY environment variable." 500),
       s')
    /\ trace s' = []
    /\ outbound_calls s' = 0%nat.
Proof.
  apply (C6_missing_key sample_runtime None (sample_world 2 "COMPLETE")
                        sample_request 0 42).
  reflexivity.
Defined.

(** C7. A request whose prompt is missing should be answered 400.  At a
    request whose JSON body is [null] the prompt is missing and no outbound
    call is made, but [data.get] raises on the value that is not a dict and
    the catch-all answers 500; the body [{}], whose prompt is missing just
    the same, is answered 400 "No prompt provided.". *)
Theorem C7_null_body_is_500 :
  key_set sample_key = true
  /\ prompt_missing_or_empty (JsonBody JNull)
  /\ (exists r s',
        generate_image sample_runtime sample_key (sample_world 2 "COMPLETE")
                       (JsonBody JNull) 0 42 = (Return r, s')
        /\ r = err ("An internal server error occurred: "
                    ++ py_str sample_runtime (AttributeError "get")) 500
        /\ status r <> 400%Z
        /\ trace s' = [])
  /\ prompt_missing_or_empty (JsonBody (JObj []))
  /\ fst (generate_image sample_runtime sample_key (sample_world 2 "COMPLETE")
                         (JsonBody (JObj [])) 0 42)
     = Return (err "No prompt provided." 400).
Proof.
  split; [reflexivity|]. split; [left; reflexivity|]. split.
  - eexists. eexists. split; [reflexivity|]. split; [reflexivity|].
    split; [cbn; discriminate | reflexivity].
  - split; [left; reflexivity | reflexivity].
Qed.

(** X20. With the credential configured, a request the handler gets no
    truthy prompt from makes no outbound call and is answered with a JSON
    [error] body: status 400 when its body is a JSON object (prompt missing,
    empty, or otherwise falsy), status 500 when the body is not a JSON object
    or cannot be read. *)
Theorem no_prompt_no_outbound_call rt key w req t0 fuel :
  key_set key = true ->
  request_prompt req = None ->
  exists r s',
    generate_image rt key w req t0 fuel = (Return r, s')
    /\ trace s' = []
    /\ outbound_calls s' = 0%nat
    /\ match req with
       | JsonBody (JObj _) => r = err "No prompt provided." 400
       | _ => is_error r 500
       end.
Proof.
  intros Hkey Hp. rewrite (early_prompt rt key w req t0 fuel Hkey Hp).
  destruct req as [[ | b | q | str | xs | kvs]|code];
    try (rewrite handle_run; eexists; eexists;
         split; [reflexivity|]; split; [reflexivity|]; split; [reflexivity|];
         unfold is_error, caught; cbn [is_RequestException];
         eexists; reflexivity).
  eexists. eexists. repeat split.
Qed.

Lemma no_prompt_no_outbound_call_witness :
  exists r s',
    generate_image sample_runtime sample_key (sample_world 2 "COMPLETE")
                   (JsonBody (JObj [("prompt"%string, JStr "")])) 0 42
    = (Return r, s')
    /\ trace s' = []
    /\ outbound_calls s' = 0%nat
    /\ r = err "No prompt provided." 400.
Proof.
  apply (no_prompt_no_outbound_call sample_runtime sample_key
           (sample_world 2 "COMPLETE")
           (JsonBody (JObj [("prompt"%string, JStr "")])) 0 42);
    reflexivity.
Defined.

(** C8. When the submit call comes back with a non-error HTTP status and
    JSON data that holds no job handle (no [request_id], an empty or
    otherwise falsy one, or data that is not an object), the handler answers
    status 500 with a JSON [error] body, and the submit call is the only
    outbound call: no status poll, no fetch. *)
Theorem C8_no_job_handle rt key w req t0 fuel p code submit_data :
  key_set key = true ->
  request_prompt req = Some p ->
  submit_reply w = HttpResponse code (Some submit_data) ->
  http_error code = false ->
  handle_of submit_data = None ->
  exists r s',
    generate_image rt key w req t0 fuel = (Return r, s')
    /\ is_error r 500
    /\ events s' = [EPost p]
    /\ status_calls s' = 0%nat
    /\ fetch_calls s' = 0%nat.
Proof.
  intros Hkey Hp Hs Hcode Hh.
  assert (Hj : job_handle w = None).
  { unfold job_handle. rewrite Hs, Hcode. exact Hh. }
  rewrite (early_submit rt key w req t0 fuel p Hkey Hp Hj), Hs, Hcode.
  destruct submit_data as [ | b | q | str | xs | kvs];
    try (rewrite handle_run; eexists; eexists;
         split; [reflexivity|]; split;
         [unfold is_error, caught; cbn [is_RequestException];
          eexists; reflexivity|];
         repeat split).
  eexists. eexists. split; [reflexivity|].
  split; [eexists; reflexivity|]. repeat split.
Qed.

Lemma C8_no_job_handle_witness :
  exists r s',
    generate_image sample_runtime sample_key
                   (with_submit_reply (sample_world 2 "COMPLETE")
                                      (ok_json (JObj [("request_id"%string, JStr "")])))
                   sample_request 0 42 = (Return r, s')
    /\ is_error r 500
    /\ events s' = [EPost (JStr "a cat")]
    /\ status_calls s' = 0%nat
    /\ fetch_calls s' = 0%nat.
Proof.
  apply (C8_no_job_handle sample_runtime sample_key
           (with_submit_reply (sample_world 2 "COMPLETE")
                              (ok_json (JObj [("request_id"%string, JStr "")])))
           sample_request 0 42 (JStr "a cat") 200
           (JObj [("request_id"%string, JStr "")]));
    reflexivity.
Defined.

(** C1. Whenever the fetch call is made and answered with a non-error HTTP
    status and a body in which the path result, output, images, first
    element, url leads to a string [u], the handler answers status 200 with
    the JSON body [{"imageUrl": u}]. *)
Theorem C1_image_url rt key w req t0 fuel res s' code result_data u :
  generate_image rt key w req t0 fuel = (res, s') ->
  (0 < fetch_calls s')%nat ->
  result_reply w = HttpResponse code (Some result_data) ->
  http_error code = false ->
  path_resolves result_data (JStr u) ->
  res = Return {| body := JObj [("imageUrl"%string, JStr u)]; status := 200 |}.
Proof.
  intros Hrun Hfetch Hreply Hcode Hpath.
  destruct (fetch_decides rt key w req t0 fuel res s' Hrun) as [Hres _]; [lia|].
  apply extract_image_url_iff in Hpath.
  rewrite Hres. unfold fetch_end. rewrite Hreply, Hcode, Hpath. reflexivity.
Qed.

Lemma C1_image_url_witness :
  fst (generate_image sample_runtime sample_key (sample_world 2 "COMPLETE")
                      sample_request 0 42)
  = Return {| body := JObj [("imageUrl"%string, JStr "https://x/y.png")];
              status := 200 |}.
Proof.
  apply (C1_image_url sample_runtime sample_key (sample_world 2 "COMPLETE")
           sample_request 0 42 _
           (snd (generate_image sample_runtime sample_key
                                (sample_world 2 "COMPLETE") sample_request 0 42))
           200 sample_result "https://x/y.png").
  - apply surjective_pairing.
  - vm_compute. constructor.
  - reflexivity.
  - reflexivity.
  - unfold path_resolves, sample_result. do 5 eexists.
    repeat split; reflexivity.
Defined.

(** C5, as the claim states it: a body that does not match the path with
    a string at its end is answered with the parse error.  A body whose
    [url] is [null] does not match (the URL is not a string), yet the
    handler answers 200 with [imageUrl: null] and prints nothing. *)
Lemma C5_counterexample :
  ~ well_formed_result null_url
  /\ result_reply null_url_world = HttpResponse 200 (Some null_url)
  /\ (0 < fetch_calls (snd (generate_image sample_runtime sample_key
                                           null_url_world sample_request 0 42)))%nat
  /\ fst (generate_image sample_runtime sample_key null_url_world
                         sample_request 0 42)
     = Return {| body := JObj [("imageUrl"%string, JNull)]; status := 200 |}
  /\ fst (generate_image sample_runtime sample_key null_url_world
                         sample_request 0 42)
     <> Return (err "Could not parse image URL from model response." 500)
  /\ stdout (snd (generate_image sample_runtime sample_key null_url_world
                                 sample_request 0 42)) = [].
Proof.
  split.
  { intros [u Hu]. apply extract_image_url_iff in Hu. discriminate Hu. }
  split; [reflexivity|]. split; [vm_compute; constructor|].
  split; [reflexivity|]. split; [|reflexivity].
  vm_compute. discriminate.
Qed.

(** C5, amended. Whenever the fetch call is made and answered with a
    non-error HTTP status and a JSON body: if the path result, output,
    images, first element, url does not resolve (a key is missing, a value on
    the way to the URL is not the object or list the next step needs, or the
    list is empty), the handler answers status 500 with a JSON [error] body,
    nothing is raised, and the one thing printed is the unexpected structure
    itself; if the path resolves, the value found is returned with status 200
    whatever its type, and nothing is printed. *)
Theorem C5_unparseable rt key w req t0 fuel res s' code result_data :
  generate_image rt key w req t0 fuel = (res, s') ->
  (0 < fetch_calls s')%nat ->
  result_reply w = HttpResponse code (Some result_data) ->
  http_error code = false ->
  ((forall u, ~ path_resolves result_data u) ->
   res = Return (err "Could not parse image URL from model response." 500)
   /\ stdout s' = [LineWithValue "Unexpected result structure:" result_data])
  /\ (forall u,
         path_resolves result_data u ->
         res = Return {| body := JObj [("imageUrl"%string, u)]; status := 200 |}
         /\ stdout s' = []).
Proof.
  intros Hrun Hfetch Hreply Hcode.
  destruct (fetch_decides rt key w req t0 fuel res s' Hrun) as [Hres Hout];
    [lia|].
  rewrite Hres, Hout. unfold fetch_end. rewrite Hreply, Hcode.
  split.
  - intros Hpath. destruct (extract_image_url result_data) as [e|u] eqn:Hx.
    + split; reflexivity.
    + apply extract_image_url_iff in Hx. destruct (Hpath u Hx).
  - intros u Hpath. apply extract_image_url_iff in Hpath. rewrite Hpath.
    split; reflexivity.
Qed.

Lemma C5_unparseable_witness :
  fst (generate_image sample_runtime sample_key empty_images_world
                      sample_request 0 42)
  = Return (err "Could not parse image URL from model response." 500)
  /\ stdout (snd (generate_image sample_runtime sample_key empty_images_world
                                  sample_request 0 42))
     = [LineWithValue "Unexpected result structure:" empty_images].
Proof.
  apply (C5_unparseable sample_runtime sample_key empty_images_world
                        sample_request 0 42 _ _ 200 empty_images).
  - apply surjective_pairing.
  - vm_compute. constructor.
  - reflexivity.
  - reflexivity.
  - intros u Hu. apply extract_image_url_iff in Hu. discriminate Hu.
Defined.

(** C2. When the first [n] status calls find the job pending (any status
    other than COMPLETE, FAILED, ERROR), the next one finds it COMPLETE, and
    the deadline is not exceeded at any of these [n+1] checks, the handler
    makes exactly [n+1] status calls, each pending one followed by a sleep
    of the poll interval (3), and then exactly one fetch call. *)
Theorem C2_poll_until_complete rt key w req t0 fuel p rid n :
  key_set key = true ->
  request_prompt req = Some p ->
  job_handle w = Some rid ->
  (forall j, (j < n)%nat -> verdict_of (status_reply w j) = Pending) ->
  verdict_of (status_reply w n) = Done ->
  (forall j, (j <= n)%nat ->
             check_clock w (t0 + submit_latency w) j - (t0 + submit_latency w)
             <= timeout) ->
  (n < fuel)%nat ->
  exists r s',
    generate_image rt key w req t0 fuel = (Return r, s')
    /\ events s' = EPost p :: rounds rid n ++ [EGetStatus rid; EGetResult rid]
    /\ status_calls s' = S n
    /\ fetch_calls s' = 1%nat
    /\ POLL_INTERVAL = 3.
Proof.
  intros Hkey Hp Hj Hpend Hdone Hchk Hfuel.
  destruct (generate_image rt key w req t0 fuel) as [res s'] eqn:Hrun.
  destruct (polling_run _ _ _ _ _ _ _ _ _ _ Hkey Hp Hj Hrun) as [m [Hm Hend]].
  assert (Hmn : m = n).
  { destruct (lt_eq_lt_dec m n) as [[Hlt|Heq]|Hgt]; [exfalso|exact Heq|exfalso].
    - pose proof (Hpend m Hlt) as Hv.
      pose proof (Hchk m (Nat.lt_le_incl _ _ Hlt)) as Hc.
      inversion Hend; subst; try congruence; try lia.
      apply (Qlt_not_le _ _ H). exact Hc.
    - destruct (Hm n Hgt) as [Hv _]. congruence. }
  subst m. pose proof (Hchk n (Nat.le_refl n)) as Hc.
  inversion Hend as [s0 Hm' Hev Hout | s0 Hlt Hclk Hev Hout | s0 Hc' Hv Hev Hout
                     | e s0 Hc' Hv Hev Hout | s0 Hc' Hv Hev Hout]; subst;
    try congruence; try lia.
  - exfalso. apply (Qlt_not_le _ _ Hlt). exact Hc.
  - eexists. exists s'. split; [reflexivity|]. split; [exact Hev|].
    destruct (calls_of_events s' p rid n _ Hev) as [Hs Hf].
    cbn in Hs, Hf. repeat split; [lia | exact Hf].
Qed.

Lemma C2_poll_until_complete_witness :
  exists r s',
    generate_image sample_runtime sample_key (sample_world 2 "COMPLETE")
                   sample_request 0 42 = (Return r, s')
    /\ events s' = EPost (JStr "a cat")
                   :: rounds (JStr "job-1") 2
                   ++ [EGetStatus (JStr "job-1"); EGetResult (JStr "job-1")]
    /\ status_calls s' = 3%nat
    /\ fetch_calls s' = 1%nat
    /\ POLL_INTERVAL = 3.
Proof.
  apply (C2_poll_until_complete sample_runtime sample_key
           (sample_world 2 "COMPLETE") sample_request 0 42
           (JStr "a cat") (JStr "job-1") 2).
  - reflexivity.
  - reflexivity.
  - reflexivity.
  - intros j Hj. destruct j as [|[|j]]; [reflexivity | reflexivity | lia].
  - reflexivity.
  - intros j Hj. destruct j as [|[|[|j]]]; [| | | lia];
      unfold Qle; vm_compute; discriminate.
  - lia.
Defined.

(** C4. If a status call the handler made is answered (non-error HTTP
    status, JSON object) with status FAILED or ERROR, that call is the last
    status call, the handler answers status 500 with a JSON [error] body,
    and no fetch call is made. *)
Theorem C4_failed_job rt key w req t0 fuel res s' j code kvs st :
  generate_image rt key w req t0 fuel = (res, s') ->
  (j < status_calls s')%nat ->
  status_reply w j = HttpResponse code (Some (JObj kvs)) ->
  http_error code = false ->
  lookup "status" kvs = Some (JStr st) ->
  st = "FAILED"%string \/ st = "ERROR"%string ->
  res = Return (err "Model generation failed." 500)
  /\ status_calls s' = S j
  /\ fetch_calls s' = 0%nat.
Proof.
  intros Hrun Hj Hreply Hcode Hst Hfailed.
  assert (Hv : verdict_of (status_reply w j) = Failed).
  { rewrite Hreply, (verdict_of_status code kvs st Hcode Hst).
    destruct Hfailed as [-> | ->]; reflexivity. }
  destruct (key_set key) eqn:Hkey;
    [destruct (request_prompt req) as [p|] eqn:Hp;
     [destruct (job_handle w) as [rid|] eqn:Hh|]|].
  - destruct (polling_run _ _ _ _ _ _ _ _ _ _ Hkey Hp Hh Hrun) as [m [Hm Hend]].
    assert (Hjm : ~ (j < m)%nat).
    { intros Hlt. destruct (Hm j Hlt) as [Hv' _]. congruence. }
    inversion Hend as [s0 Hm' Hev Hout | s0 Hlt Hclk Hev Hout | s0 Hc' Hv' Hev Hout
                       | e s0 Hc' Hv' Hev Hout | s0 Hc' Hv' Hev Hout]; subst.
    + destruct (calls_of_rounds s' p rid _ Hev) as [Hs Hf]. lia.
    + destruct (calls_of_rounds s' p rid _ Hev) as [Hs Hf]. lia.
    + destruct (calls_of_events s' p rid _ _ Hev) as [Hs Hf].
      cbn in Hs, Hf. repeat split; [lia | exact Hf].
    + destruct (calls_of_events s' p rid _ _ Hev) as [Hs Hf]. cbn in Hs.
      assert (j = m) by lia. subst j. congruence.
    + destruct (calls_of_events s' p rid _ _ Hev) as [Hs Hf]. cbn in Hs.
      assert (j = m) by lia. subst j. congruence.
  - exfalso.
    destruct (early_run rt key w req t0 fuel res s') as [_ [He|[q He]]];
      auto; unfold status_calls in Hj; rewrite He in Hj; cbn in Hj; lia.
  - exfalso.
    destruct (early_run rt key w req t0 fuel res s') as [_ [He|[q He]]];
      auto; unfold status_calls in Hj; rewrite He in Hj; cbn in Hj; lia.
  - exfalso.
    destruct (early_run rt key w req t0 fuel res s') as [_ [He|[q He]]];
      auto; unfold status_calls in Hj; rewrite He in Hj; cbn in Hj; lia.
Qed.

Lemma C4_failed_job_witness :
  fst (generate_image sample_runtime sample_key (sample_world 2 "ERROR")
                      sample_request 0 42)
  = Return (err "Model generation failed." 500)
  /\ status_calls (snd (generate_image sample_runtime sample_key
                          (sample_world 2 "ERROR") sample_request 0 42)) = 3%nat
  /\ fetch_calls (snd (generate_image sample_runtime sample_key
                         (sample_world 2 "ERROR") sample_request 0 42)) = 0%nat.
Proof.
  apply (C4_failed_job sample_runtime sample_key (sample_world 2 "ERROR")
           sample_request 0 42 _ _ 2 200
           [("status"%string, JStr "ERROR")] "ERROR").
  - apply surjective_pairing.
  - vm_compute. constructor.
  - reflexivity.
  - reflexivity.
  - reflexivity.
  - right. reflexivity.
Defined.

(** C3. When every status call issued within the 120 second window (which
    opens when the submit call has returned) finds the job pending, the
    handler answers status 504 with a JSON [error] body and makes no fetch
    call.  It does so at the first deadline check after the window has
    closed: more than 120 seconds after the submit call returned, and no
    later than the last round (one status call and one sleep) overshoots. *)
Theorem C3_timeout rt key w req t0 fuel p rid :
  key_set key = true ->
  request_prompt req = Some p ->
  job_handle w = Some rid ->
  wf_world w ->
  (forall j, check_clock w (t0 + submit_latency w) j - (t0 + submit_latency w)
             <= timeout ->
             verdict_of (status_reply w j) = Pending) ->
  (42 <= fuel)%nat ->
  exists s' m,
    generate_image rt key w req t0 fuel
    = (Return (err "Request timed out while waiting for model." 504), s')
    /\ fetch_calls s' = 0%nat
    /\ status_calls s' = S m
    /\ (m <= 40)%nat
    /\ events s' = EPost p :: rounds rid (S m)
    /\ clock s' = check_clock w (t0 + submit_latency w) (S m)
    /\ timeout < clock s' - (t0 + submit_latency w)
    /\ clock s' - (t0 + submit_latency w)
       <= timeout + (status_latency w m + (POLL_INTERVAL + oversleep w m)).
Proof.
  intros Hkey Hp Hj Hwf Hpend Hfuel.
  destruct (generate_image rt key w req t0 fuel) as [res s'] eqn:Hrun.
  destruct (polling_run _ _ _ _ _ _ _ _ _ _ Hkey Hp Hj Hrun) as [m [Hm Hend]].
  set (st := t0 + submit_latency w) in *.
  inversion Hend as [s0 Hm' Hev Hout | s0 Hlt Hclk Hev Hout | s0 Hc Hv Hev Hout
                     | e s0 Hc Hv Hev Hout | s0 Hc Hv Hev Hout]; subst.
  - exfalso. destruct (Hm 41%nat) as [_ Hc]; [lia|].
    pose proof (rounds_within_deadline w st 41 Hwf Hc). lia.
  - destruct m as [|m].
    { exfalso. cbn [check_clock] in Hlt. unfold timeout in Hlt. lra. }
    destruct (Hm m) as [_ Hc]; [lia|].
    destruct (calls_of_rounds s' p rid _ Hev) as [Hs Hf].
    exists s', m. split; [reflexivity|].
    split; [exact Hf|]. split; [exact Hs|].
    split; [exact (rounds_within_deadline w st m Hwf Hc)|].
    split; [exact Hev|]. split; [exact Hclk|].
    rewrite Hclk. split; [exact Hlt|].
    cbn [check_clock]. lra.
  - rewrite (Hpend m Hc) in Hv. discriminate.
  - rewrite (Hpend m Hc) in Hv. discriminate.
  - rewrite (Hpend m Hc) in Hv. discriminate.
Qed.

Lemma wf_stuck_world : wf_world stuck_world.
Proof. intros k. split; cbn; unfold Qle; cbn; lia. Defined.

Lemma C3_timeout_witness :
  exists s' m,
    generate_image sample_runtime sample_key stuck_world sample_request 0 42
    = (Return (err "Request timed out while waiting for model." 504), s')
    /\ fetch_calls s' = 0%nat
    /\ status_calls s' = S m
    /\ (m <= 40)%nat
    /\ events s' = EPost (JStr "a cat") :: rounds (JStr "job-1") (S m)
    /\ clock s' = check_clock stuck_world (0 + 1) (S m)
    /\ timeout < clock s' - (0 + 1)
    /\ clock s' - (0 + 1)
       <= timeout + (status_latency stuck_world m
                     + (POLL_INTERVAL + oversleep stuck_world m)).
Proof.
  apply (C3_timeout sample_runtime sample_key stuck_world sample_request
                    0 42 (JStr "a cat") (JStr "job-1")).
  - reflexivity.
  - reflexivity.
  - reflexivity.
  - exact wf_stuck_world.
  - intros j _. reflexivity.
  - lia.
Defined.

(** C9. Every run of the handler ends in a [return] of a response: nothing
    is raised out of it.  The response is the success body or a JSON body
    with the single field [error] (a string) and status 400, 500, 502 or 504.
    A transport failure of the submit call, of any status call or of the
    fetch call is answered 502; any exception of the [try] block that is not
    a [RequestException] is answered 500; and with calls that take no
    negative time, 42 rounds of fuel always reach the answer. *)
Theorem C9_error_mapping rt key w req t0 fuel res s' :
  generate_image rt key w req t0 fuel = (res, s') ->
  (res = OutOfFuel
   \/ exists r, res = Return r
                /\ (is_success r
                    \/ exists code, is_error r code
                                    /\ In code [400; 500; 502; 504]%Z))
  /\ (wf_world w -> (42 <= fuel)%nat -> exists r, res = Return r)
  /\ (forall detail,
         outbound_calls s' <> 0%nat ->
         submit_reply w = NoResponse detail ->
         res = Return (err ("API request failed: "
                            ++ py_str rt (ConnectionError detail)) 502))
  /\ (forall j detail,
         (j < status_calls s')%nat ->
         status_reply w j = NoResponse detail ->
         res = Return (err ("API request failed: "
                            ++ py_str rt (ConnectionError detail)) 502))
  /\ (forall detail,
         (0 < fetch_calls s')%nat ->
         result_reply w = NoResponse detail ->
         res = Return (err ("API request failed: "
                            ++ py_str rt (ConnectionError detail)) 502))
  /\ (forall e s1,
         key_set key = true ->
         try_block w req fuel (initial_state t0) = (Raise e, s1) ->
         is_RequestException rt e = false ->
         res = Return (err ("An internal server error occurred: "
                            ++ py_str rt e) 500)).
Proof.
  intros Hrun.
  assert (Hcases :
    (key_set key = false \/ request_prompt req = None \/ job_handle w = None)
    \/ exists p rid, key_set key = true /\ request_prompt req = Some p
                     /\ job_handle w = Some rid).
  { destruct (key_set key); [|auto].
    destruct (request_prompt req) as [p|]; [|auto].
    destruct (job_handle w) as [rid|]; [|auto].
    right. exists p, rid. auto. }
  split; [|split; [|split; [|split; [|split]]]].
  - destruct res as [[]|e|r|]; [|right; exists r; split; [reflexivity|]|auto].
    + exfalso. destruct Hcases as [He|[p [rid [Hkey [Hp Hj]]]]].
      * destruct (early_run _ _ _ _ _ _ _ _ He Hrun) as [[r [c [Hr _]]] _].
        discriminate.
      * destruct (polling_run _ _ _ _ _ _ _ _ _ _ Hkey Hp Hj Hrun) as [m [_ Hend]].
        inversion Hend.
    + exact (answer_shape rt key w req t0 fuel r s' Hrun).
  - intros Hwf Hfuel. destruct Hcases as [He|[p [rid [Hkey [Hp Hj]]]]].
    + destruct (early_run _ _ _ _ _ _ _ _ He Hrun) as [[r [c [Hr _]]] _].
      exists r. exact Hr.
    + destruct (polling_run _ _ _ _ _ _ _ _ _ _ Hkey Hp Hj Hrun) as [m [Hm Hend]].
      inversion Hend; subst; try (eexists; reflexivity).
      exfalso. destruct (Hm 41%nat) as [_ Hc]; [lia|].
      pose proof (rounds_within_deadline w _ 41 Hwf Hc). lia.
  - intros detail Hcalls Hs.
    destruct (key_set key) eqn:Hkey.
    2:{ rewrite (early_key rt key w req t0 fuel Hkey) in Hrun.
        inversion Hrun; subst. destruct Hcalls. reflexivity. }
    destruct (request_prompt req) as [p|] eqn:Hp.
    2:{ pose proof (no_prompt_trace rt key w req t0 fuel res s' Hkey Hp Hrun)
          as Ht.
        destruct Hcalls. unfold outbound_calls, events. now rewrite Ht. }
    assert (Hj : job_handle w = None) by (unfold job_handle; now rewrite Hs).
    rewrite (early_submit rt key w req t0 fuel p Hkey Hp Hj), Hs, handle_run
      in Hrun.
    inversion Hrun; subst. reflexivity.
  - intros j detail Hj Hs.
    assert (Hv : verdict_of (status_reply w j) = Broken (ConnectionError detail))
      by now rewrite Hs.
    destruct Hcases as [He|[p [rid [Hkey [Hp Hh]]]]].
    { exfalso.
      destruct (early_run _ _ _ _ _ _ _ _ He Hrun) as [_ [Hev|[q Hev]]];
        unfold status_calls in Hj; rewrite Hev in Hj; cbn in Hj; lia. }
    destruct (polling_run _ _ _ _ _ _ _ _ _ _ Hkey Hp Hh Hrun) as [m [Hm Hend]].
    assert (Hjm : ~ (j < m)%nat).
    { intros Hlt. destruct (Hm j Hlt) as [Hv' _]. congruence. }
    inversion Hend as [s0 Hm' Hev Hout | s0 Hlt Hclk Hev Hout | s0 Hc' Hv' Hev Hout
                       | e s0 Hc' Hv' Hev Hout | s0 Hc' Hv' Hev Hout]; subst.
    + destruct (calls_of_rounds s' p rid _ Hev) as [Hs' Hf]. lia.
    + destruct (calls_of_rounds s' p rid _ Hev) as [Hs' Hf]. lia.
    + destruct (calls_of_events s' p rid _ _ Hev) as [Hs' Hf]. cbn in Hs'.
      assert (j = m) by lia. subst j. congruence.
    + destruct (calls_of_events s' p rid _ _ Hev) as [Hs' Hf]. cbn in Hs'.
      assert (j = m) by lia. subst j. rewrite Hv in Hv'.
      inversion Hv'; subst e. reflexivity.
    + destruct (calls_of_events s' p rid _ _ Hev) as [Hs' Hf]. cbn in Hs'.
      assert (j = m) by lia. subst j. congruence.
  - intros detail Hfetch Hr.
    destruct (fetch_decides rt key w req t0 fuel res s' Hrun) as [Hres _];
      [lia|].
    rewrite Hres, Hr. reflexivity.
  - intros e s1 Hkey Htry Hexn.
    unfold generate_image in Hrun. rewrite Hkey in Hrun. cbn [negb] in Hrun.
    unfold try_except in Hrun. rewrite Htry, handle_run in Hrun.
    inversion Hrun; subst. unfold caught. now rewrite Hexn.
Qed.

Lemma C9_error_mapping_witness :
  fst (generate_image sample_runtime sample_key unreachable_world
                      sample_request 0 42)
  = Return (err ("API request failed: "
                 ++ py_str sample_runtime (ConnectionError "connection refused"))
                502).
Proof.
  destruct (C9_error_mapping sample_runtime sample_key unreachable_world
              sample_request 0 42 _ _ (surjective_pairing _))
    as [_ [_ [Hsubmit _]]].
  apply (Hsubmit "connection refused"%string).
  - vm_compute. discriminate.
  - reflexivity.
Defined.

(** * Further properties of the handler *)

Lemma in_rounds (rid : json) (m : nat) (e : event) :
  In e (rounds rid m) -> e = EGetStatus rid \/ e = ESleep POLL_INTERVAL.
Proof.
  induction m as [|m IH]; cbn; [tauto|].
  intros [H|[H|H]]; auto.
Qed.

Lemma reply_data_verdict (r : reply) (e : exn) :
  reply_data r = inl e -> verdict_of r = Broken e.
Proof.
  unfold reply_data, verdict_of, http_error.
  destruct r as [d|code [j|]]; [intros H; inversion H; reflexivity | |];
    destruct ((400 <=? code) && (code <? 600))%Z; intros H;
    inversion H; reflexivity.
Qed.

Lemma reply_data_fetch_end (rt : runtime) (r : reply) (e : exn) :
  reply_data r = inl e -> fetch_end rt r = (caught rt e, [caught_line rt e]).
Proof.
  unfold reply_data, fetch_end.
  destruct r as [d|code [j|]]; [intros H; inversion H; reflexivity | |];
    destruct (http_error code); intros H; inversion H; reflexivity.
Qed.

(** A submit call that raises: the [except] clause answers, nothing else
    is called. *)
Lemma submit_raises rt key w req t0 fuel p e :
  key_set key = true ->
  request_prompt req = Some p ->
  reply_data (submit_reply w) = inl e ->
  generate_image rt key w req t0 fuel
  = (Return (caught rt e), logged (caught_line rt e) (submitted w p t0)).
Proof.
  intros Hkey Hp He.
  assert (Hj : job_handle w = None).
  { unfold job_handle. unfold reply_data in He.
    destruct (submit_reply w) as [d|code [j|]]; try reflexivity.
    destruct (http_error code); [reflexivity | discriminate]. }
  rewrite (early_submit rt key w req t0 fuel p Hkey Hp Hj).
  unfold reply_data in He.
  destruct (submit_reply w) as [d|code [j|]].
  - inversion He; subst. apply handle_run.
  - destruct (http_error code); [|discriminate].
    inversion He; subst. apply handle_run.
  - destruct (http_error code); inversion He; subst; apply handle_run.
Qed.

(** A status call that raises is the last call of the run. *)
Lemma status_call_raises rt key w req t0 fuel res s' j e :
  generate_image rt key w req t0 fuel = (res, s') ->
  (j < status_calls s')%nat ->
  verdict_of (status_reply w j) = Broken e ->
  res = Return (caught rt e)
  /\ status_calls s' = S j
  /\ fetch_calls s' = 0%nat
  /\ stdout s' = [caught_line rt e].
Proof.
  intros Hrun Hj Hv.
  destruct (key_set key) eqn:Hkey;
    [destruct (request_prompt req) as [p|] eqn:Hp;
     [destruct (job_handle w) as [rid|] eqn:Hh|]|].
  2-4: exfalso;
    destruct (early_run rt key w req t0 fuel res s') as [_ [He|[q He]]];
    auto; unfold status_calls in Hj; rewrite He in Hj; cbn in Hj; lia.
  destruct (polling_run _ _ _ _ _ _ _ _ _ _ Hkey Hp Hh Hrun) as [m [Hm Hend]].
  assert (Hjm : ~ (j < m)%nat).
  { intros Hlt. destruct (Hm j Hlt) as [Hv' _]. congruence. }
  inversion Hend as [s0 Hm' Hev Hout | s0 Hlt Hclk Hev Hout | s0 Hc' Hv' Hev Hout
                     | e0 s0 Hc' Hv' Hev Hout | s0 Hc' Hv' Hev Hout]; subst.
  - destruct (calls_of_rounds s' p rid _ Hev) as [Hs' Hf]. lia.
  - destruct (calls_of_rounds s' p rid _ Hev) as [Hs' Hf]. lia.
  - destruct (calls_of_events s' p rid _ _ Hev) as [Hs' Hf]. cbn in Hs'.
    assert (j = m) by lia. subst j. congruence.
  - destruct (calls_of_events s' p rid _ _ Hev) as [Hs' Hf]. cbn in Hs', Hf.
    assert (j = m) by lia. subst j. rewrite Hv in Hv'.
    inversion Hv'; subst e0. repeat split; [lia | exact Hf | exact Hout].
  - destruct (calls_of_events s' p rid _ _ Hev) as [Hs' Hf]. cbn in Hs'.
    assert (j = m) by lia. subst j. congruence.
Qed.

(** X1. An HTTP error status (4xx or 5xx) in the answer to the submit call,
    to a status call or to the fetch call is answered 502 with the text of
    the [HTTPError], whatever the body of that answer holds, and is the last
    call of the run. *)
Theorem http_error_status_is_502 rt key w req t0 fuel res s' code payload :
  generate_image rt key w req t0 fuel = (res, s') ->
  http_error code = true ->
  (forall p,
      key_set key = true ->
      request_prompt req = Some p ->
      submit_reply w = HttpResponse code payload ->
      res = Return (err ("API request failed: " ++ py_str rt (HTTPError code)) 502)
      /\ events s' = [EPost p])
  /\ (forall j,
         (j < status_calls s')%nat ->
         status_reply w j = HttpResponse code payload ->
         res = Return (err ("API request failed: "
                            ++ py_str rt (HTTPError code)) 502)
         /\ status_calls s' = S j
         /\ fetch_calls s' = 0%nat)
  /\ ((0 < fetch_calls s')%nat ->
      result_reply w = HttpResponse code payload ->
      res = Return (err ("API request failed: " ++ py_str rt (HTTPError code)) 502)).
Proof.
  intros Hrun Hcode.
  assert (Hd : reply_data (HttpResponse code payload) = inl (HTTPError code)).
  { unfold reply_data. now rewrite Hcode. }
  split; [|split].
  - intros p Hkey Hp Hs. rewrite <- Hs in Hd.
    rewrite (submit_raises rt key w req t0 fuel p _ Hkey Hp Hd) in Hrun.
    inversion Hrun; subst. split; reflexivity.
  - intros j Hj Hs. rewrite <- Hs in Hd. apply reply_data_verdict in Hd.
    destruct (status_call_raises _ _ _ _ _ _ _ _ _ _ Hrun Hj Hd)
      as [Hres [Hc [Hf _]]].
    repeat split; assumption.
  - intros Hf Hr. rewrite <- Hr in Hd.
    destruct (fetch_decides rt key w req t0 fuel res s' Hrun) as [Hres _];
      [lia|].
    rewrite Hres, (reply_data_fetch_end rt _ _ Hd). reflexivity.
Qed.

Lemma http_error_status_is_502_witness :
  fst (generate_image sample_runtime sample_key overloaded_world
                      sample_request 0 42)
  = Return (err ("API request failed: " ++ py_str sample_runtime (HTTPError 503))
                502)
  /\ status_calls (snd (generate_image sample_runtime sample_key overloaded_world
                                       sample_request 0 42)) = 2%nat
  /\ fetch_calls (snd (generate_image sample_runtime sample_key overloaded_world
                                      sample_request 0 42)) = 0%nat.
Proof.
  destruct (http_error_status_is_502 sample_runtime sample_key overloaded_world
              sample_request 0 42 _ _ 503 None (surjective_pairing _) eq_refl)
    as [_ [Hstatus _]].
  apply (Hstatus 1%nat).
  - vm_compute. constructor.
  - reflexivity.
Defined.

(** X2. A body that is not JSON, in an answer with a non-error HTTP status
    to the submit call, to a status call or to the fetch call, makes
    [.json()] raise; the run ends there, and the answer is 502 when the
    library's JSON error is a [RequestException] and 500 when it is not. *)
Theorem not_json_body rt key w req t0 fuel res s' code :
  generate_image rt key w req t0 fuel = (res, s') ->
  http_error code = false ->
  (forall p,
      key_set key = true ->
      request_prompt req = Some p ->
      submit_reply w = HttpResponse code None ->
      res = Return (caught rt JSONDecodeError) /\ events s' = [EPost p])
  /\ (forall j,
         (j < status_calls s')%nat ->
         status_reply w j = HttpResponse code None ->
         res = Return (caught rt JSONDecodeError)
         /\ status_calls s' = S j
         /\ fetch_calls s' = 0%nat)
  /\ ((0 < fetch_calls s')%nat ->
      result_reply w = HttpResponse code None ->
      res = Return (caught rt JSONDecodeError))
  /\ status (caught rt JSONDecodeError)
     = (if json_error_is_request_exception rt then 502 else 500)%Z.
Proof.
  intros Hrun Hcode.
  assert (Hd : reply_data (HttpResponse code None) = inl JSONDecodeError).
  { unfold reply_data. now rewrite Hcode. }
  split; [|split; [|split]].
  - intros p Hkey Hp Hs. rewrite <- Hs in Hd.
    rewrite (submit_raises rt key w req t0 fuel p _ Hkey Hp Hd) in Hrun.
    inversion Hrun; subst. split; reflexivity.
  - intros j Hj Hs. rewrite <- Hs in Hd. apply reply_data_verdict in Hd.
    destruct (status_call_raises _ _ _ _ _ _ _ _ _ _ Hrun Hj Hd)
      as [Hres [Hc [Hf _]]].
    repeat split; assumption.
  - intros Hf Hr. rewrite <- Hr in Hd.
    destruct (fetch_decides rt key w req t0 fuel res s' Hrun) as [Hres _];
      [lia|].
    rewrite Hres, (reply_data_fetch_end rt _ _ Hd). reflexivity.
  - unfold caught. cbn [is_RequestException].
    destruct (json_error_is_request_exception rt); reflexivity.
Qed.

Lemma not_json_body_witness :
  fst (generate_image sample_runtime sample_key html_world sample_request 0 42)
  = Return (caught sample_runtime JSONDecodeError)
  /\ status_calls (snd (generate_image sample_runtime sample_key html_world
                                       sample_request 0 42)) = 2%nat
  /\ fetch_calls (snd (generate_image sample_runtime sample_key html_world
                                      sample_request 0 42)) = 0%nat.
Proof.
  destruct (not_json_body sample_runtime sample_key html_world
              sample_request 0 42 _ _ 200 (surjective_pairing _) eq_refl)
    as [_ [Hstatus _]].
  apply (Hstatus 1%nat).
  - vm_compute. constructor.
  - reflexivity.
Defined.

Lemma early_submit_events rt key w req t0 fuel p res s' :
  key_set key = true ->
  request_prompt req = Some p ->
  job_handle w = None ->
  generate_image rt key w req t0 fuel = (res, s') ->
  events s' = [EPost p] /\ clock s' = t0 + submit_latency w.
Proof.
  intros Hkey Hp Hj Hrun.
  rewrite (early_submit rt key w req t0 fuel p Hkey Hp Hj) in Hrun.
  destruct (submit_reply w) as [detail|code [[ | | | | | kvs]|]];
    [|destruct (http_error code)..];
    try rewrite handle_run in Hrun; inversion Hrun; subst; split; reflexivity.
Qed.

(** X3. Whatever is called, is called with what came in: the submit call
    carries the prompt of the request, every status call and the fetch call
    carry the job handle of the submit response, and every sleep lasts the
    poll interval. *)
Theorem calls_carry_prompt_and_handle rt key w req t0 fuel res s' e :
  generate_image rt key w req t0 fuel = (res, s') ->
  In e (events s') ->
  match e with
  | EPost p => request_prompt req = Some p
  | EGetStatus rid => job_handle w = Some rid
  | EGetResult rid => job_handle w = Some rid
  | ESleep seconds => seconds = POLL_INTERVAL
  end.
Proof.
  intros Hrun Hin.
  destruct (key_set key) eqn:Hkey.
  2:{ rewrite (early_key rt key w req t0 fuel Hkey) in Hrun.
      inversion Hrun; subst. destruct Hin. }
  destruct (request_prompt req) as [p|] eqn:Hp.
  2:{ pose proof (no_prompt_trace rt key w req t0 fuel res s' Hkey Hp Hrun) as Ht.
      unfold events in Hin. rewrite Ht in Hin. destruct Hin. }
  destruct (job_handle w) as [rid|] eqn:Hj.
  2:{ destruct (early_submit_events _ _ _ _ _ _ _ _ _ Hkey Hp Hj Hrun) as [He _].
      rewrite He in Hin. destruct Hin as [<-|[]]. reflexivity. }
  destruct (polling_run _ _ _ _ _ _ _ _ _ _ Hkey Hp Hj Hrun) as [m [_ Hend]].
  assert (Hshape : exists tail,
             events s' = EPost p :: rounds rid m ++ tail
             /\ forall x, In x tail -> x = EGetStatus rid \/ x = EGetResult rid).
  { inversion Hend as [s0 Hm' Hev Hout | s0 Hlt Hclk Hev Hout | s0 Hc Hv Hev Hout
                       | e0 s0 Hc Hv Hev Hout | s0 Hc Hv Hev Hout]; subst;
      [exists [] | exists [] | exists [EGetStatus rid] | exists [EGetStatus rid]
       | exists [EGetStatus rid; EGetResult rid]];
      (split; [rewrite ?app_nil_r; exact Hev|]);
      cbn; intuition. }
  destruct Hshape as [tail [Hev Htail]]. rewrite Hev in Hin.
  destruct Hin as [<-|Hin]; [reflexivity|].
  apply in_app_or in Hin. destruct Hin as [Hin|Hin].
  - destruct (in_rounds _ _ _ Hin) as [-> | ->]; reflexivity.
  - destruct (Htail _ Hin) as [-> | ->]; reflexivity.
Qed.

Lemma calls_carry_prompt_and_handle_witness :
  job_handle (sample_world 2 "COMPLETE") = Some (JStr "job-1").
Proof.
  apply (calls_carry_prompt_and_handle sample_runtime sample_key
           (sample_world 2 "COMPLETE") sample_request 0 42 _ _
           (EGetResult (JStr "job-1")) (surjective_pairing _)).
  vm_compute. do 6 right. left. reflexivity.
Defined.

Lemma caught_status (rt : runtime) (e : exn) :
  status (caught rt e) = (if is_RequestException rt e then 502 else 500)%Z.
Proof. unfold caught. destruct (is_RequestException rt e); reflexivity. Qed.

Lemma fetch_end_200 (rt : runtime) (r : reply) :
  status (fst (fetch_end rt r)) = 200%Z ->
  exists data u,
    reply_data r = inr data
    /\ extract_image_url data = inr u
    /\ fetch_end rt r = (jsonify [("imageUrl"%string, u)], []).
Proof.
  unfold fetch_end, reply_data.
  assert (Hc : forall e, status (caught rt e) <> 200%Z).
  { intros e. rewrite caught_status. destruct (is_RequestException rt e); lia. }
  destruct r as [d|code [data|]]; cbn [fst].
  - intros H. destruct (Hc _ H).
  - destruct (http_error code); [intros H; destruct (Hc _ H)|].
    destruct (extract_image_url data) as [le|u] eqn:Hx; cbn [fst].
    + discriminate.
    + intros _. exists data, u. repeat split. exact Hx.
  - destruct (http_error code); intros H; destruct (Hc _ H).
Qed.

(** X4. The handler answers 200 only at the end of the whole exchange: the
    submit call gave a job handle, some number of status calls found the
    job pending, one more found it COMPLETE, the fetch call was made and
    its answer held a URL.  Nothing is printed on that path. *)
Theorem success_only_after_complete rt key w req t0 fuel r s' :
  generate_image rt key w req t0 fuel = (Return r, s') ->
  status r = 200%Z ->
  exists p rid m data u,
    request_prompt req = Some p
    /\ job_handle w = Some rid
    /\ (forall j, (j < m)%nat -> verdict_of (status_reply w j) = Pending)
    /\ verdict_of (status_reply w m) = Done
    /\ reply_data (result_reply w) = inr data
    /\ path_resolves data u
    /\ r = jsonify [("imageUrl"%string, u)]
    /\ events s' = EPost p :: rounds rid m ++ [EGetStatus rid; EGetResult rid]
    /\ stdout s' = [].
Proof.
  intros Hrun H200.
  destruct (key_set key) eqn:Hkey;
    [destruct (request_prompt req) as [p|] eqn:Hp;
     [destruct (job_handle w) as [rid|] eqn:Hj|]|].
  2-4: exfalso;
    destruct (early_run rt key w req t0 fuel (Return r) s')
      as [[r0 [c [Hr [He Hc]]]] _];
    auto; inversion Hr; subst r0; apply is_error_status in He; lia.
  destruct (polling_run _ _ _ _ _ _ _ _ _ _ Hkey Hp Hj Hrun) as [m [Hm Hend]].
  inversion Hend as [s0 Hm' Hev Hout | s0 Hlt Hclk Hev Hout | s0 Hc Hv Hev Hout
                     | e s0 Hc Hv Hev Hout | s0 Hc Hv Hev Hout]; subst.
  - discriminate H200.
  - discriminate H200.
  - exfalso. rewrite caught_status in H200.
    destruct (is_RequestException rt e); lia.
  - destruct (fetch_end_200 rt _ H200) as [data [u [Hd [Hx Hfe]]]].
    exists p, rid, m, data, u.
    rewrite Hfe in *. cbn [fst snd] in *.
    repeat split; try assumption.
    + intros j Hlt. exact (proj1 (Hm j Hlt)).
    + now apply extract_image_url_iff.
Qed.

Lemma success_only_after_complete_witness :
  exists p rid m data u,
    request_prompt sample_request = Some p
    /\ job_handle (sample_world 2 "COMPLETE") = Some rid
    /\ (forall j, (j < m)%nat ->
                  verdict_of (status_reply (sample_world 2 "COMPLETE") j) = Pending)
    /\ verdict_of (status_reply (sample_world 2 "COMPLETE") m) = Done
    /\ reply_data (result_reply (sample_world 2 "COMPLETE")) = inr data
    /\ path_resolves data u
    /\ jsonify [("imageUrl"%string, JStr "https://x/y.png")]
       = jsonify [("imageUrl"%string, u)]
    /\ events (snd (generate_image sample_runtime sample_key
                                   (sample_world 2 "COMPLETE") sample_request 0 42))
       = EPost p :: rounds rid m ++ [EGetStatus rid; EGetResult rid]
    /\ stdout (snd (generate_image sample_runtime sample_key
                                   (sample_world 2 "COMPLETE") sample_request 0 42))
       = [].
Proof.
  apply (success_only_after_complete sample_runtime sample_key
           (sample_world 2 "COMPLETE") sample_request 0 42
           (jsonify [("imageUrl"%string, JStr "https://x/y.png")])).
  - apply surjective_pairing.
  - reflexivity.
Defined.

Lemma filter_post_rounds (rid : json) (m : nat) :
  filter is_post (rounds rid m) = [].
Proof. induction m as [|m IH]; cbn; [reflexivity | exact IH]. Qed.

(** X5. A run never repeats the submit call or the fetch call, and when no
    call takes negative time it makes at most 41 status calls, whatever the
    job does and however much fuel the loop is given. *)
Theorem calls_are_bounded rt key w req t0 fuel res s' :
  generate_image rt key w req t0 fuel = (res, s') ->
  (submit_calls s' <= 1)%nat
  /\ (fetch_calls s' <= 1)%nat
  /\ (wf_world w -> (status_calls s' <= 41)%nat).
Proof.
  intros Hrun.
  destruct (key_set key) eqn:Hkey;
    [destruct (request_prompt req) as [p|] eqn:Hp;
     [destruct (job_handle w) as [rid|] eqn:Hj|]|].
  2-4: destruct (early_run rt key w req t0 fuel res s') as [_ [He|[q He]]];
    auto; unfold submit_calls, fetch_calls, status_calls; rewrite He; cbn;
    repeat split; intros; lia.
  destruct (polling_run _ _ _ _ _ _ _ _ _ _ Hkey Hp Hj Hrun) as [m [Hm Hend]].
  assert (Hpost : forall l, events s' = EPost p :: rounds rid m ++ l ->
                            filter is_post l = [] ->
                            (submit_calls s' <= 1)%nat).
  { intros l Hev Hl. unfold submit_calls. rewrite Hev. cbn [filter is_post].
    rewrite filter_app, filter_post_rounds, Hl. cbn. lia. }
  assert (Hbound : forall k, (k < m)%nat -> wf_world w -> (k <= 40)%nat).
  { intros k Hk Hwf. destruct (Hm k Hk) as [_ Hc].
    exact (rounds_within_deadline w _ k Hwf Hc). }
  assert (Hm41 : wf_world w -> (m <= 41)%nat).
  { intros Hwf. destruct m as [|m]; [lia|].
    pose proof (Hbound m (Nat.lt_succ_diag_r m) Hwf). lia. }
  inversion Hend as [s0 Hm' Hev Hout | s0 Hlt Hclk Hev Hout | s0 Hc Hv Hev Hout
                     | e s0 Hc Hv Hev Hout | s0 Hc Hv Hev Hout]; subst.
  - destruct (calls_of_rounds s' p rid _ Hev) as [Hs Hf].
    rewrite <- (app_nil_r (rounds rid fuel)) in Hev.
    split; [exact (Hpost [] Hev eq_refl)|].
    split; [lia|]. intros Hwf. specialize (Hm41 Hwf). lia.
  - destruct (calls_of_rounds s' p rid _ Hev) as [Hs Hf].
    rewrite <- (app_nil_r (rounds rid m)) in Hev.
    split; [exact (Hpost [] Hev eq_refl)|].
    split; [lia|]. intros Hwf. specialize (Hm41 Hwf). lia.
  - destruct (calls_of_events s' p rid _ _ Hev) as [Hs Hf]. cbn in Hs, Hf.
    split; [exact (Hpost _ Hev eq_refl)|].
    split; [lia|]. intros Hwf.
    pose proof (rounds_within_deadline w _ m Hwf Hc). lia.
  - destruct (calls_of_events s' p rid _ _ Hev) as [Hs Hf]. cbn in Hs, Hf.
    split; [exact (Hpost _ Hev eq_refl)|].
    split; [lia|]. intros Hwf.
    pose proof (rounds_within_deadline w _ m Hwf Hc). lia.
  - destruct (calls_of_events s' p rid _ _ Hev) as [Hs Hf]. cbn in Hs, Hf.
    split; [exact (Hpost _ Hev eq_refl)|].
    split; [lia|]. intros Hwf.
    pose proof (rounds_within_deadline w _ m Hwf Hc). lia.
Qed.

Lemma calls_are_bounded_witness :
  (status_calls (snd (generate_image sample_runtime sample_key stuck_world
                                     sample_request 0 1000)) <= 41)%nat.
Proof.
  destruct (calls_are_bounded sample_runtime sample_key stuck_world
              sample_request 0 1000 _ _ (surjective_pairing _))
    as [_ [_ Hstatus]].
  exact (Hstatus wf_stuck_world).
Defined.

(** Every answer with what is printed for it: a quiet answer and nothing,
    the answer of an [except] clause and its line, or the parse error and
    the structure that could not be parsed. *)
Lemma answer_and_output rt key w req t0 fuel r s' :
  generate_image rt key w req t0 fuel = (Return r, s') ->
  (quiet_answer r /\ stdout s' = [])
  \/ (exists e, r = caught rt e /\ stdout s' = [caught_line rt e])
  \/ (exists data, r = unparseable
                   /\ stdout s' = [LineWithValue "Unexpected result structure:" data]).
Proof.
  intros Hrun. unfold quiet_answer.
  destruct (key_set key) eqn:Hkey.
  2:{ rewrite (early_key rt key w req t0 fuel Hkey) in Hrun.
      inversion Hrun; subst. left. auto. }
  destruct (request_prompt req) as [p|] eqn:Hp.
  2:{ rewrite (early_prompt rt key w req t0 fuel Hkey Hp) in Hrun.
      destruct req as [[ | b | q | str | xs | kvs]|code];
        try (rewrite handle_run in Hrun; inversion Hrun; subst;
             right; left; eexists; split; reflexivity).
      inversion Hrun; subst. left. auto. }
  destruct (job_handle w) as [rid|] eqn:Hj.
  2:{ rewrite (early_submit rt key w req t0 fuel p Hkey Hp Hj) in Hrun.
      destruct (submit_reply w) as [detail|code [[ | | | | | kvs]|]];
        [|destruct (http_error code)..];
        try (rewrite handle_run in Hrun; inversion Hrun; subst;
             right; left; eexists; split; reflexivity).
      inversion Hrun; subst. left. auto 6. }
  destruct (polling_run _ _ _ _ _ _ _ _ _ _ Hkey Hp Hj Hrun) as [m [_ Hend]].
  inversion Hend as [s0 Hm' Hev Hout | s0 Hlt Hclk Hev Hout | s0 Hc Hv Hev Hout
                     | e s0 Hc Hv Hev Hout | s0 Hc Hv Hev Hout]; subst.
  - left. auto 6.
  - left. auto 7.
  - right. left. exists e. auto.
  - rewrite Hout. unfold fetch_end.
    destruct (result_reply w) as [d|code [data|]];
      [|destruct (http_error code); [|destruct (extract_image_url data) as [le|u]]
       |destruct (http_error code)];
      cbn [fst snd];
      try (right; left; eexists; split; reflexivity).
    + right. right. exists data. auto.
    + left. split; [|reflexivity]. do 5 right. exists u. reflexivity.
Qed.

(** Status 400 is not given once the handler has a prompt to submit, nor
    without the credential. *)
Lemma status_400_no_prompt rt key w req t0 fuel r s' :
  generate_image rt key w req t0 fuel = (Return r, s') ->
  status r = 400%Z ->
  key_set key = true /\ request_prompt req = None.
Proof.
  intros Hrun H400.
  destruct (key_set key) eqn:Hkey.
  2:{ rewrite (early_key rt key w req t0 fuel Hkey) in Hrun.
      inversion Hrun; subst. discriminate H400. }
  split; [reflexivity|].
  destruct (request_prompt req) as [p|] eqn:Hp; [exfalso | reflexivity].
  destruct (job_handle w) as [rid|] eqn:Hj.
  - destruct (polling_run _ _ _ _ _ _ _ _ _ _ Hkey Hp Hj Hrun) as [m [_ Hend]].
    inversion Hend; subst; try discriminate H400.
    + rewrite caught_status in H400.
      destruct (is_RequestException rt e); lia.
    + destruct (fetch_end_shape rt (result_reply w)) as [H|[H|H]];
        [apply is_success_status in H | apply is_error_status in H
         | apply is_error_status in H]; lia.
  - rewrite (early_submit rt key w req t0 fuel p Hkey Hp Hj) in Hrun.
    destruct (submit_reply w) as [detail|code [[ | | | | | kvs]|]];
      [|destruct (http_error code)..];
      try rewrite handle_run in Hrun; inversion Hrun; subst;
      try rewrite caught_status in H400; cbn in H400;
      try destruct (json_error_is_request_exception rt); lia.
Qed.

(** X6. Status 400 is given for one reason only: the body of the request is
    a JSON object whose [prompt] is missing or falsy.  It is given before any
    outbound call, and only with the credential configured. *)
Theorem bad_request_only_for_falsy_prompt rt key w req t0 fuel r s' :
  generate_image rt key w req t0 fuel = (Return r, s') ->
  status r = 400%Z ->
  key_set key = true
  /\ (exists kvs,
         req = JsonBody (JObj kvs)
         /\ truthy (match lookup "prompt" kvs with
                    | Some v => v
                    | None => JNull
                    end) = false)
  /\ r = err "No prompt provided." 400
  /\ trace s' = [].
Proof.
  intros Hrun H400.
  destruct (status_400_no_prompt _ _ _ _ _ _ _ _ Hrun H400) as [Hkey Hp].
  split; [exact Hkey|].
  pose proof (no_prompt_trace rt key w req t0 fuel _ s' Hkey Hp Hrun) as Ht.
  rewrite (early_prompt rt key w req t0 fuel Hkey Hp) in Hrun.
  destruct req as [[ | b | q | str | xs | kvs]|code];
    try (exfalso; rewrite handle_run in Hrun; inversion Hrun; subst;
         discriminate H400).
  inversion Hrun; subst. split; [|split; [reflexivity | exact Ht]].
  exists kvs. split; [reflexivity|].
  unfold request_prompt in Hp.
  destruct (lookup "prompt" kvs) as [v|]; [|reflexivity].
  destruct (truthy v); [discriminate | reflexivity].
Qed.

Lemma bad_request_only_for_falsy_prompt_witness :
  key_set sample_key = true
  /\ (exists kvs,
         JsonBody (JObj [("prompt"%string, JNum 0)]) = JsonBody (JObj kvs)
         /\ truthy (match lookup "prompt" kvs with
                    | Some v => v
                    | None => JNull
                    end) = false)
  /\ err "No prompt provided." 400 = err "No prompt provided." 400
  /\ trace (initial_state 0) = [].
Proof.
  apply (bad_request_only_for_falsy_prompt sample_runtime sample_key
           (sample_world 2 "COMPLETE")
           (JsonBody (JObj [("prompt"%string, JNum 0)])) 0 42);
    reflexivity.
Defined.

(** X7. Status 502 is given by the first [except] clause only: some
    [RequestException] was raised, the answer quotes its text, and the one
    line printed quotes the same text. *)
Theorem bad_gateway_is_logged rt key w req t0 fuel r s' :
  generate_image rt key w req t0 fuel = (Return r, s') ->
  status r = 502%Z ->
  exists e,
    is_RequestException rt e = true
    /\ r = err ("API request failed: " ++ py_str rt e) 502
    /\ stdout s' = [Line ("Request failed: " ++ py_str rt e)].
Proof.
  intros Hrun H502.
  destruct (answer_and_output rt key w req t0 fuel r s' Hrun)
    as [[Hq _]|[[e [-> Hout]]|[data [-> _]]]].
  - exfalso. unfold quiet_answer in Hq.
    destruct Hq as [->|[->|[->|[->|[->|Hs]]]]]; try discriminate H502.
    apply is_success_status in Hs. lia.
  - exists e. rewrite caught_status in H502. rewrite Hout.
    unfold caught, caught_line.
    destruct (is_RequestException rt e); [auto | lia].
  - discriminate H502.
Qed.

Lemma bad_gateway_is_logged_witness :
  exists e,
    is_RequestException sample_runtime e = true
    /\ err "API request failed: connection refused" 502
       = err ("API request failed: " ++ py_str sample_runtime e) 502
    /\ stdout (snd (generate_image sample_runtime sample_key unreachable_world
                                   sample_request 0 42))
       = [Line ("Request failed: " ++ py_str sample_runtime e)].
Proof.
  apply (bad_gateway_is_logged sample_runtime sample_key unreachable_world
           sample_request 0 42); reflexivity.
Defined.

(** X8. The handler prints at most one line per request, and none at all
    when it answers 200, 400 or 504. *)
Theorem prints_at_most_one_line rt key w req t0 fuel r s' :
  generate_image rt key w req t0 fuel = (Return r, s') ->
  (List.length (stdout s') <= 1)%nat
  /\ (status r = 200%Z \/ status r = 400%Z \/ status r = 504%Z ->
      stdout s' = []).
Proof.
  intros Hrun.
  destruct (answer_and_output rt key w req t0 fuel r s' Hrun)
    as [[Hq Hout]|[[e [-> Hout]]|[data [-> Hout]]]]; rewrite Hout.
  - split; [cbn; lia | reflexivity].
  - split; [cbn; lia|]. rewrite caught_status.
    destruct (is_RequestException rt e); intros [H|[H|H]]; lia.
  - split; [cbn; lia|]. cbn. intros [H|[H|H]]; lia.
Qed.

Lemma prints_at_most_one_line_witness :
  (List.length (stdout (snd (generate_image sample_runtime sample_key stuck_world
                                            sample_request 0 42))) <= 1)%nat
  /\ (status timed_out = 200%Z \/ status timed_out = 400%Z
      \/ status timed_out = 504%Z ->
      stdout (snd (generate_image sample_runtime sample_key stuck_world
                                  sample_request 0 42)) = []).
Proof.
  apply (prints_at_most_one_line sample_runtime sample_key stuck_world
           sample_request 0 42 timed_out).
  vm_compute. reflexivity.
Defined.

(** X9. The value found at the end of the path is returned as it is, with
    status 200, whatever JSON value it is: the handler does not check that
    the URL is a string, so [null] or a number come back as [imageUrl]. *)
Theorem url_is_not_validated rt key w req t0 fuel res s' data u :
  generate_image rt key w req t0 fuel = (res, s') ->
  (0 < fetch_calls s')%nat ->
  reply_data (result_reply w) = inr data ->
  path_resolves data u ->
  res = Return (jsonify [("imageUrl"%string, u)])
  /\ stdout s' = [].
Proof.
  intros Hrun Hfetch Hd Hpath.
  destruct (fetch_decides rt key w req t0 fuel res s' Hrun) as [Hres Hout];
    [lia|].
  apply extract_image_url_iff in Hpath.
  rewrite Hres, Hout. unfold fetch_end. unfold reply_data in Hd.
  destruct (result_reply w) as [d|code [j|]]; [discriminate | |].
  - destruct (http_error code); [discriminate|].
    inversion Hd; subst j. rewrite Hpath. split; reflexivity.
  - destruct (http_error code); discriminate.
Qed.

Lemma url_is_not_validated_witness :
  fst (generate_image sample_runtime sample_key null_url_world
                      sample_request 0 42)
  = Return (jsonify [("imageUrl"%string, JNull)])
  /\ stdout (snd (generate_image sample_runtime sample_key null_url_world
                                 sample_request 0 42)) = [].
Proof.
  apply (url_is_not_validated sample_runtime sample_key null_url_world
           sample_request 0 42 _ _ null_url JNull).
  - apply surjective_pairing.
  - vm_compute. constructor.
  - reflexivity.
  - unfold path_resolves, null_url. do 5 eexists. repeat split; reflexivity.
Defined.

Lemma fetch_clock rt w rid (s : state) res s' :
  try_except (fetch_result w rid) (handle rt) s = (res, s') ->
  clock s' = clock s + result_latency w.
Proof.
  rewrite fetch_result_run. intros H.
  destruct (result_reply w) as [d|code [data|]];
    [|destruct (http_error code); [|destruct (extract_image_url data)]
     |destruct (http_error code)];
    try rewrite handle_run in H; inversion H; subst; reflexivity.
Qed.

(** X10. How long a request can take.  When no call takes negative time, the
    handler answers no later than the submit call's duration, plus the 120
    seconds of the window, plus one more round (the last status call and one
    sleep), plus the fetch call's duration; and the clock never runs
    backwards over a request. *)
Theorem response_time_bound rt key w req t0 fuel r s' :
  generate_image rt key w req t0 fuel = (Return r, s') ->
  wf_world w ->
  0 <= submit_latency w ->
  0 <= result_latency w ->
  t0 <= clock s'
  /\ exists m,
       (m <= 40)%nat
       /\ clock s' - t0
          <= submit_latency w + timeout
             + (status_latency w m + (POLL_INTERVAL + oversleep w m))
             + result_latency w.
Proof.
  intros Hrun Hwf Hsub Hres.
  assert (Hearly : clock s' = t0 \/ clock s' = t0 + submit_latency w ->
            t0 <= clock s'
            /\ exists m,
                 (m <= 40)%nat
                 /\ clock s' - t0
                    <= submit_latency w + timeout
                       + (status_latency w m + (POLL_INTERVAL + oversleep w m))
                       + result_latency w).
  { intros Hc. destruct (Hwf 0%nat) as [Hl Ho].
    unfold timeout, POLL_INTERVAL.
    split; [destruct Hc as [-> | ->]; lra|].
    exists 0%nat. split; [lia|]. destruct Hc as [-> | ->]; lra. }
  destruct (key_set key) eqn:Hkey.
  2:{ rewrite (early_key rt key w req t0 fuel Hkey) in Hrun.
      inversion Hrun; subst. apply Hearly. left. reflexivity. }
  destruct (request_prompt req) as [p|] eqn:Hp.
  2:{ apply Hearly. left.
      rewrite (early_prompt rt key w req t0 fuel Hkey Hp) in Hrun.
      destruct req as [[ | b | q | str | xs | kvs]|code];
        try rewrite handle_run in Hrun; inversion Hrun; subst; reflexivity. }
  destruct (job_handle w) as [rid|] eqn:Hj.
  2:{ apply Hearly. right.
      exact (proj2 (early_submit_events _ _ _ _ _ _ _ _ _ Hkey Hp Hj Hrun)). }
  clear Hearly.
  rewrite (generate_image_polling rt key w req t0 fuel p rid Hkey Hp Hj),
    after_loop in Hrun.
  set (st := t0 + submit_latency w) in *.
  assert (Hclk : clock (submitted w p t0) = check_clock w st 0) by reflexivity.
  destruct (poll_loop w rid st fuel 0 (submitted w p t0)) as [r1 s1] eqn:Hloop.
  assert (Hr1 : r1 <> OutOfFuel).
  { intros ->. discriminate Hrun. }
  apply poll_loop_polls in Hloop; [|exact Hr1].
  destruct (polls_inv _ _ _ _ _ _ _ Hloop Hclk) as [m [Hpend [_ Hend]]].
  cbn [Nat.add] in *.
  destruct Hend as [[-> [_ [Hc1 Hlt]]]|[-> [Hnp [Hchk [_ Hc1]]]]].
  - inversion Hrun; subst r s1.
    destruct m as [|m].
    { exfalso. cbn [check_clock] in Hlt. unfold timeout in Hlt. lra. }
    destruct (Hpend m) as [_ Hle]; [lia|].
    pose proof (rounds_within_deadline w st m Hwf Hle) as Hm.
    pose proof (check_clock_lower w st Hwf (S m)) as Hlow.
    assert (0 <= inject_Z (Z.of_nat (S m))) by (rewrite <- (Zle_Qle 0); lia).
    rewrite Hc1. unfold st, POLL_INTERVAL in *. split; [nra|].
    exists m. split; [exact Hm|]. cbn [check_clock]. unfold POLL_INTERVAL. lra.
  - pose proof (rounds_within_deadline w st m Hwf Hchk) as Hm.
    pose proof (check_clock_lower w st Hwf m) as Hlow.
    assert (0 <= inject_Z (Z.of_nat m)) by (rewrite <- (Zle_Qle 0); lia).
    destruct (Hwf m) as [Hl Ho].
    assert (Hs' : clock s' = clock s1 \/ clock s' = clock s1 + result_latency w).
    { destruct (verdict_of (status_reply w m)); cbn [outcome_of] in Hrun.
      - right. exact (fetch_clock _ _ _ _ _ _ Hrun).
      - left. inversion Hrun; subst. reflexivity.
      - congruence.
      - left. rewrite handle_run in Hrun. inversion Hrun; subst. reflexivity. }
    unfold st, POLL_INTERVAL, timeout in *.
    split; [destruct Hs' as [-> | ->]; rewrite Hc1; nra|].
    exists m. split; [exact Hm|].
    destruct Hs' as [-> | ->]; rewrite Hc1; lra.
Qed.

Lemma response_time_bound_witness :
  0 <= clock (snd (generate_image sample_runtime sample_key stuck_world
                                  sample_request 0 42))
  /\ exists m,
       (m <= 40)%nat
       /\ clock (snd (generate_image sample_runtime sample_key stuck_world
                                     sample_request 0 42)) - 0
          <= submit_latency stuck_world + timeout
             + (status_latency stuck_world m
                + (POLL_INTERVAL + oversleep stuck_world m))
             + result_latency stuck_world.
Proof.
  apply (response_time_bound sample_runtime sample_key stuck_world
           sample_request 0 42 timed_out).
  - vm_compute. reflexivity.
  - exact wf_stuck_world.
  - vm_compute. discriminate.
  - vm_compute. discriminate.
Defined.

(** * The page *)

Lemma setLoading_false_fields (pg : page) :
  btn_disabled (setLoading false pg) = false
  /\ btn_text (setLoading false pg) = "Generate Image"%string
  /\ loader_hidden (setLoading false pg) = true.
Proof. repeat split. Qed.

(** X11. One submit of the form posts at most one request: none when the
    prompt field is empty, and otherwise exactly one, whose body is the JSON
    object holding the prompt, posted while the button is disabled. *)
Theorem page_posts_once (br : browser) (net : json -> page_fetch)
        (prompt : string) (pg : page) :
  requests_sent (submit_handler br net prompt pg)
  = requests_sent pg
    ++ (if String.eqb prompt EmptyString then []
        else [(true, JObj [("prompt"%string, JStr prompt)])]).
Proof.
  unfold submit_handler.
  destruct (String.eqb prompt EmptyString).
  - cbn. now rewrite app_nil_r.
  - cbv zeta.
    destruct (read_answer br (net (JObj [("prompt"%string, JStr prompt)])));
      reflexivity.
Qed.

(** X12. However the request ends (an image, an error answer, a body that
    is not JSON, a request that fails), the loading state is taken back:
    after the handler the button is enabled and reads "Generate Image", and
    the loader is hidden.  With an empty prompt the loading state is not
    touched at all. *)
Theorem loading_always_ends (br : browser) (net : json -> page_fetch)
        (prompt : string) (pg : page) :
  (prompt <> EmptyString ->
   btn_disabled (submit_handler br net prompt pg) = false
   /\ btn_text (submit_handler br net prompt pg) = "Generate Image"%string
   /\ loader_hidden (submit_handler br net prompt pg) = true)
  /\ (prompt = EmptyString ->
      btn_disabled (submit_handler br net prompt pg) = btn_disabled pg
      /\ btn_text (submit_handler br net prompt pg) = btn_text pg
      /\ loader_hidden (submit_handler br net prompt pg) = loader_hidden pg
      /\ message (submit_handler br net prompt pg) = Text "Please enter a prompt.").
Proof.
  unfold submit_handler. split; intros H.
  - apply String.eqb_neq in H. rewrite H. cbv zeta.
    apply setLoading_false_fields.
  - subst prompt. cbn. repeat split.
Qed.

Lemma loading_always_ends_witness :
  btn_disabled (submit_handler sample_browser (fun _ => Rejected "Failed to fetch")
                               "a cat" fresh_page) = false
  /\ btn_text (submit_handler sample_browser (fun _ => Rejected "Failed to fetch")
                              "a cat" fresh_page) = "Generate Image"%string
  /\ loader_hidden (submit_handler sample_browser
                                   (fun _ => Rejected "Failed to fetch")
                                   "a cat" fresh_page) = true.
Proof.
  apply (proj1 (loading_always_ends sample_browser
                  (fun _ => Rejected "Failed to fetch") "a cat" fresh_page)).
  discriminate.
Defined.

(** X13. After a submit with a prompt the page shows an image or an error,
    never both: either the result area is visible, the message is empty and
    image and link hold the same URL; or the result area is hidden, image
    and link are as they were, and the message shown is the one line added
    to the console. *)
Theorem image_or_error (br : browser) (net : json -> page_fetch)
        (prompt : string) (pg : page) :
  prompt <> EmptyString ->
  (result_hidden (submit_handler br net prompt pg) = false
   /\ message (submit_handler br net prompt pg) = Text ""
   /\ image_src (submit_handler br net prompt pg)
      = link_href (submit_handler br net prompt pg)
   /\ console (submit_handler br net prompt pg) = console pg)
  \/ (result_hidden (submit_handler br net prompt pg) = true
      /\ console (submit_handler br net prompt pg)
         = console pg ++ [message (submit_handler br net prompt pg)]
      /\ image_src (submit_handler br net prompt pg) = image_src pg
      /\ link_href (submit_handler br net prompt pg) = link_href pg).
Proof.
  intros H. apply String.eqb_neq in H. unfold submit_handler. rewrite H.
  cbv zeta.
  destruct (read_answer br (net (JObj [("prompt"%string, JStr prompt)])));
    [right | left]; repeat split.
Qed.

Lemma image_or_error_witness :
  (result_hidden (submit_handler sample_browser image_server "a cat" fresh_page)
   = false
   /\ message (submit_handler sample_browser image_server "a cat" fresh_page)
      = Text ""
   /\ image_src (submit_handler sample_browser image_server "a cat" fresh_page)
      = link_href (submit_handler sample_browser image_server "a cat" fresh_page)
   /\ console (submit_handler sample_browser image_server "a cat" fresh_page)
      = console fresh_page)
  \/ (result_hidden (submit_handler sample_browser image_server "a cat" fresh_page)
      = true
      /\ console (submit_handler sample_browser image_server "a cat" fresh_page)
         = console fresh_page
           ++ [message (submit_handler sample_browser image_server "a cat"
                                       fresh_page)]
      /\ image_src (submit_handler sample_browser image_server "a cat" fresh_page)
         = image_src fresh_page
      /\ link_href (submit_handler sample_browser image_server "a cat" fresh_page)
         = link_href fresh_page).
Proof.
  apply (image_or_error sample_browser image_server "a cat" fresh_page).
  discriminate.
Defined.

Lemma error_text_of_answer rt key w req t0 fuel msg code s' :
  generate_image rt key w req t0 fuel = (Return (err msg code), s') ->
  msg <> EmptyString /\ response_ok code = false.
Proof.
  intros Hrun.
  assert (Hcode : response_ok code = false).
  { destruct (answer_shape rt key w req t0 fuel _ s' Hrun) as [[u Hu]|[c [[m Hm] Hc]]].
    - discriminate Hu.
    - inversion Hm; subst. cbn in Hc.
      destruct Hc as [<-|[<-|[<-|[<-|[]]]]]; reflexivity. }
  split; [|exact Hcode].
  destruct (answer_and_output rt key w req t0 fuel _ s' Hrun)
    as [[Hq _]|[[e [He _]]|[data [Hu _]]]].
  - unfold quiet_answer in Hq.
    destruct Hq as [H|[H|[H|[H|[H|[u H]]]]]]; inversion H; discriminate.
  - unfold caught in He. destruct (is_RequestException rt e);
      inversion He; discriminate.
  - inversion Hu; discriminate.
Qed.

(** X14. The page on top of the handler.  When the handler's response to the
    request the page posts is delivered to the page: an error response has
    its [error] text shown as it is, with the result area hidden; a success
    response with a truthy URL has that URL set on image and link, the result
    shown and the message cleared; and a success response whose URL is
    falsy ([null], the empty string) is shown as the error "Backend did not
    return an image URL." although its status is 200. *)
Theorem page_shows_answer rt key w t0 fuel br net prompt pg r s' :
  prompt <> EmptyString ->
  generate_image rt key w (JsonBody (JObj [("prompt"%string, JStr prompt)]))
                 t0 fuel = (Return r, s') ->
  net (JObj [("prompt"%string, JStr prompt)]) = delivered r ->
  (forall msg code,
      r = err msg code ->
      result_hidden (submit_handler br net prompt pg) = true
      /\ message (submit_handler br net prompt pg) = Text msg)
  /\ (forall u,
         r = jsonify [("imageUrl"%string, u)] ->
         js_truthy u = true ->
         result_hidden (submit_handler br net prompt pg) = false
         /\ image_src (submit_handler br net prompt pg) = js_string u
         /\ link_href (submit_handler br net prompt pg) = js_string u
         /\ message (submit_handler br net prompt pg) = Text "")
  /\ (forall u,
         r = jsonify [("imageUrl"%string, u)] ->
         js_truthy u = false ->
         result_hidden (submit_handler br net prompt pg) = true
         /\ message (submit_handler br net prompt pg)
            = Text "Backend did not return an image URL.").
Proof.
  intros Hp Hrun Hnet. apply String.eqb_neq in Hp.
  unfold submit_handler. rewrite Hp, Hnet. cbv zeta.
  split; [|split].
  - intros msg code ->.
    destruct (error_text_of_answer _ _ _ _ _ _ _ _ _ Hrun) as [Hmsg Hok].
    apply String.eqb_neq in Hmsg.
    unfold read_answer, delivered. cbn [status body err jsonify_status].
    rewrite Hok. cbn [negb js_member lookup String.eqb Ascii.eqb Bool.eqb].
    cbn [js_truthy]. rewrite Hmsg. cbn. split; reflexivity.
  - intros u -> Hu. unfold read_answer, delivered.
    cbn [status body jsonify response_ok Z.leb Z.compare Pos.compare
         Pos.compare_cont andb negb js_member lookup String.eqb Ascii.eqb
         Bool.eqb].
    rewrite Hu. repeat split.
  - intros u -> Hu. unfold read_answer, delivered.
    cbn [status body jsonify response_ok Z.leb Z.compare Pos.compare
         Pos.compare_cont andb negb js_member lookup String.eqb Ascii.eqb
         Bool.eqb].
    rewrite Hu. repeat split.
Qed.

Lemma page_shows_answer_witness :
  result_hidden (submit_handler sample_browser
                   (fun _ => delivered (jsonify [("imageUrl"%string, JNull)]))
                   "a cat" fresh_page) = true
  /\ message (submit_handler sample_browser
                (fun _ => delivered (jsonify [("imageUrl"%string, JNull)]))
                "a cat" fresh_page)
     = Text "Backend did not return an image URL.".
Proof.
  destruct (page_shows_answer sample_runtime sample_key null_url_world 0 42
              sample_browser
              (fun _ => delivered (jsonify [("imageUrl"%string, JNull)]))
              "a cat" fresh_page
              (jsonify [("imageUrl"%string, JNull)])
              (snd (generate_image sample_runtime sample_key null_url_world
                                   sample_request 0 42)))
    as [_ [_ Hfalsy]].
  - discriminate.
  - vm_compute. reflexivity.
  - reflexivity.
  - apply (Hfalsy JNull); reflexivity.
Defined.

(** X15. A request the page posts is never answered 400: the page keeps an
    empty prompt to itself and always posts a JSON object with a non-empty
    string, which the handler accepts; with the credential configured the
    handler goes on to the submit call with exactly that prompt. *)
Theorem page_request_is_accepted rt key w t0 fuel prompt res s' :
  prompt <> EmptyString ->
  generate_image rt key w (JsonBody (JObj [("prompt"%string, JStr prompt)]))
                 t0 fuel = (res, s') ->
  (forall r, res = Return r -> status r <> 400%Z)
  /\ (key_set key = true ->
      exists rest, events s' = EPost (JStr prompt) :: rest).
Proof.
  intros Hp Hrun. apply String.eqb_neq in Hp.
  assert (Hreq : request_prompt (JsonBody (JObj [("prompt"%string, JStr prompt)]))
                 = Some (JStr prompt)).
  { cbn. now rewrite Hp. }
  split.
  - intros r -> H400.
    destruct (status_400_no_prompt _ _ _ _ _ _ _ _ Hrun H400) as [_ Hnone].
    rewrite Hreq in Hnone. discriminate.
  - intros Hkey. destruct (job_handle w) as [rid|] eqn:Hj.
    + destruct (polling_run _ _ _ _ _ _ _ _ _ _ Hkey Hreq Hj Hrun)
        as [m [_ Hend]].
      inversion Hend; subst; eexists; eassumption.
    + destruct (early_submit_events _ _ _ _ _ _ _ _ _ Hkey Hreq Hj Hrun)
        as [Hev _].
      exists []. exact Hev.
Qed.

Lemma page_request_is_accepted_witness :
  exists rest,
    events (snd (generate_image sample_runtime sample_key
                                (sample_world 2 "COMPLETE") sample_request 0 42))
    = EPost (JStr "a cat") :: rest.
Proof.
  destruct (page_request_is_accepted sample_runtime sample_key
              (sample_world 2 "COMPLETE") 0 42 "a cat" _ _
              ltac:(discriminate) (surjective_pairing _)) as [_ Hsent].
  exact (Hsent eq_refl).
Defined.

(** * More on the polling loop *)

(** X16. A status call answered (non-error HTTP status) with JSON that is
    not an object, such as a list or a bare string, makes [.get] raise: the
    run ends there with status 500 and the text of the [AttributeError], no
    further status call and no fetch call. *)
Theorem status_data_not_an_object rt key w req t0 fuel res s' j code data :
  generate_image rt key w req t0 fuel = (res, s') ->
  (j < status_calls s')%nat ->
  status_reply w j = HttpResponse code (Some data) ->
  http_error code = false ->
  (forall kvs, data <> JObj kvs) ->
  res = Return (err ("An internal server error occurred: "
                     ++ py_str rt (AttributeError "get")) 500)
  /\ status_calls s' = S j
  /\ fetch_calls s' = 0%nat
  /\ stdout s' = [Line ("An error occurred: " ++ py_str rt (AttributeError "get"))].
Proof.
  intros Hrun Hj Hs Hcode Hdata.
  assert (Hv : verdict_of (status_reply w j) = Broken (AttributeError "get")).
  { rewrite Hs. unfold verdict_of. unfold http_error in Hcode. rewrite Hcode.
    destruct data as [ | b | q | str | xs | kvs]; try reflexivity.
    destruct (Hdata kvs eq_refl). }
  exact (status_call_raises _ _ _ _ _ _ _ _ _ _ Hrun Hj Hv).
Qed.

Lemma status_data_not_an_object_witness :
  fst (generate_image sample_runtime sample_key list_world sample_request 0 42)
  = Return (err ("An internal server error occurred: "
                 ++ py_str sample_runtime (AttributeError "get")) 500)
  /\ status_calls (snd (generate_image sample_runtime sample_key list_world
                                       sample_request 0 42)) = 2%nat
  /\ fetch_calls (snd (generate_image sample_runtime sample_key list_world
                                      sample_request 0 42)) = 0%nat
  /\ stdout (snd (generate_image sample_runtime sample_key list_world
                                 sample_request 0 42))
     = [Line ("An error occurred: "
              ++ py_str sample_runtime (AttributeError "get"))].
Proof.
  apply (status_data_not_an_object sample_runtime sample_key list_world
           sample_request 0 42 _ _ 1 200 (JArr [JStr "IN_PROGRESS"])).
  - apply surjective_pairing.
  - vm_compute. constructor.
  - reflexivity.
  - reflexivity.
  - intros kvs H. discriminate H.
Defined.

Lemma json_eq_str_false (v : json) (lit : string) :
  v <> JStr lit -> json_eq_str v lit = false.
Proof.
  intros H. destruct v as [ | | | s | | ]; try reflexivity.
  cbn. apply String.eqb_neq. intros ->. now apply H.
Qed.

(** X17. Only the three exact strings end the polling.  A status answer
    (non-error HTTP status, JSON object) whose [status] is missing, is not a
    string, or is any other string (say "complete" in lower case) is never
    the last word: the run goes on to a further status call, unless the
    deadline check ends it with the 504 answer first. *)
Theorem other_status_keeps_polling rt key w req t0 fuel res s' j code kvs :
  generate_image rt key w req t0 fuel = (res, s') ->
  wf_world w ->
  (42 <= fuel)%nat ->
  (j < status_calls s')%nat ->
  status_reply w j = HttpResponse code (Some (JObj kvs)) ->
  http_error code = false ->
  (forall v, lookup "status" kvs = Some v ->
             v <> JStr "COMPLETE" /\ v <> JStr "FAILED" /\ v <> JStr "ERROR") ->
  (S j < status_calls s')%nat
  \/ (res = Return timed_out /\ status_calls s' = S j).
Proof.
  intros Hrun Hwf Hfuel Hj Hs Hcode Hst.
  assert (Hv : verdict_of (status_reply w j) = Pending).
  { rewrite Hs. unfold verdict_of. unfold http_error in Hcode. rewrite Hcode.
    destruct (lookup "status" kvs) as [v|]; [|reflexivity].
    destruct (Hst v eq_refl) as [H1 [H2 H3]].
    unfold json_in_strs. cbn [existsb].
    now rewrite !json_eq_str_false. }
  destruct (key_set key) eqn:Hkey;
    [destruct (request_prompt req) as [p|] eqn:Hp;
     [destruct (job_handle w) as [rid|] eqn:Hh|]|].
  2-4: exfalso;
    destruct (early_run rt key w req t0 fuel res s') as [_ [He|[q He]]];
    auto; unfold status_calls in Hj; rewrite He in Hj; cbn in Hj; lia.
  destruct (polling_run _ _ _ _ _ _ _ _ _ _ Hkey Hp Hh Hrun) as [m [Hm Hend]].
  inversion Hend as [s0 Hm' Hev Hout | s0 Hlt Hclk Hev Hout | s0 Hc' Hv' Hev Hout
                     | e0 s0 Hc' Hv' Hev Hout | s0 Hc' Hv' Hev Hout]; subst.
  - exfalso. destruct (Hm 41%nat) as [_ Hc]; [lia|].
    pose proof (rounds_within_deadline w _ 41 Hwf Hc). lia.
  - destruct (calls_of_rounds s' p rid _ Hev) as [Hs' Hf].
    destruct (Nat.eq_dec (S j) m) as [Heq|Hne]; [right | left; lia].
    split; [reflexivity | lia].
  - destruct (calls_of_events s' p rid _ _ Hev) as [Hs' Hf]. cbn in Hs'.
    destruct (Nat.eq_dec j m) as [->|Hne]; [congruence | left; lia].
  - destruct (calls_of_events s' p rid _ _ Hev) as [Hs' Hf]. cbn in Hs'.
    destruct (Nat.eq_dec j m) as [->|Hne]; [congruence | left; lia].
  - destruct (calls_of_events s' p rid _ _ Hev) as [Hs' Hf]. cbn in Hs'.
    destruct (Nat.eq_dec j m) as [->|Hne]; [congruence | left; lia].
Qed.

Lemma other_status_keeps_polling_witness :
  (1 < status_calls (snd (generate_image sample_runtime sample_key
                            (sample_world 2 "COMPLETE") sample_request 0 42)))%nat
  \/ (fst (generate_image sample_runtime sample_key (sample_world 2 "COMPLETE")
                          sample_request 0 42) = Return timed_out
      /\ status_calls (snd (generate_image sample_runtime sample_key
                              (sample_world 2 "COMPLETE") sample_request 0 42))
         = 1%nat).
Proof.
  apply (other_status_keeps_polling sample_runtime sample_key
           (sample_world 2 "COMPLETE") sample_request 0 42 _ _ 0 200
           [("status"%string, JStr "IN_PROGRESS")]).
  - apply surjective_pairing.
  - intros k. split; cbn; unfold Qle; cbn; lia.
  - lia.
  - vm_compute. repeat constructor.
  - reflexivity.
  - reflexivity.
  - intros v Hv. inversion Hv; subst v. repeat split; discriminate.
Defined.

Lemma status_times_issued (e : event) (took : Q) (s : state) :
  status_times (issued e took s)
  = status_times s ++ (if is_status e then [clock s] else []).
Proof.
  unfold status_times, issued. cbn [trace].
  rewrite filter_app, map_app. cbn [filter snd].
  destruct (is_status e); reflexivity.
Qed.

Lemma status_times_length (s : state) :
  List.length (status_times s) = status_calls s.
Proof.
  unfold status_times, status_calls, events. rewrite length_map.
  induction (trace s) as [|[t e] l IH]; [reflexivity|].
  cbn [map filter snd]. destruct (is_status e); cbn [List.length]; now rewrite IH.
Qed.

Lemma poll_loop_times (w : world) (rid : json) (st : Q) (fuel : nat) :
  forall k s res s',
    poll_loop w rid st fuel k s = (res, s') ->
    clock s = check_clock w st k ->
    exists n,
      status_times s' = status_times s ++ map (check_clock w st) (seq k n).
Proof.
  induction fuel as [|fuel IH]; intros k s res s' Hrun Hclk.
  - cbn in Hrun. inversion Hrun; subst. exists 0%nat. cbn. now rewrite app_nil_r.
  - rewrite poll_loop_step in Hrun.
    destruct (Qgtb (clock s - st) timeout).
    { inversion Hrun; subst. exists 0%nat. cbn. now rewrite app_nil_r. }
    cbv zeta in Hrun.
    assert (Hone : status_times (asked w rid k s)
                   = status_times s ++ map (check_clock w st) (seq k 1)).
    { unfold asked. rewrite status_times_issued. cbn. now rewrite Hclk. }
    destruct (verdict_of (status_reply w k)).
    + inversion Hrun; subst. now exists 1%nat.
    + inversion Hrun; subst. now exists 1%nat.
    + apply IH in Hrun;
        [|cbn [clock slept asked issued check_clock]; now rewrite Hclk].
      destruct Hrun as [n Hn]. exists (S n).
      rewrite Hn. unfold slept. rewrite status_times_issued. cbn [is_status].
      rewrite app_nil_r, Hone, <- app_assoc. reflexivity.
    + inversion Hrun; subst. now exists 1%nat.
Qed.

Lemma nth_check_clock (w : world) (st : Q) (n j : nat) :
  (j < n)%nat ->
  nth j (map (check_clock w st) (seq 0 n)) 0 = check_clock w st j.
Proof.
  intros Hj.
  rewrite (nth_indep _ 0 (check_clock w st 0)) by (now rewrite length_map, length_seq).
  rewrite map_nth, seq_nth by exact Hj. reflexivity.
Qed.

(** X18. When the status calls are made.  The first one is issued the
    moment the submit call has returned, without an initial wait, and each
    further one is issued exactly one status call and one sleep after the one
    before: with calls and sleeps that take no negative time, two status calls
    are never less than the poll interval (3 seconds) apart. *)
Theorem polls_are_spaced rt key w req t0 fuel res s' :
  generate_image rt key w req t0 fuel = (res, s') ->
  status_times s'
  = map (check_clock w (t0 + submit_latency w)) (seq 0 (status_calls s'))
  /\ ((0 < status_calls s')%nat ->
      nth 0 (status_times s') 0 = t0 + submit_latency w)
  /\ (forall j,
         (S j < status_calls s')%nat ->
         nth (S j) (status_times s') 0
         = nth j (status_times s') 0
           + status_latency w j + (POLL_INTERVAL + oversleep w j))
  /\ (wf_world w ->
      forall j,
        (S j < status_calls s')%nat ->
        POLL_INTERVAL <= nth (S j) (status_times s') 0 - nth j (status_times s') 0).
Proof.
  intros Hrun.
  assert (Htimes : status_times s'
            = map (check_clock w (t0 + submit_latency w))
                  (seq 0 (status_calls s'))).
  { destruct (key_set key) eqn:Hkey;
      [destruct (request_prompt req) as [p|] eqn:Hp;
       [destruct (job_handle w) as [rid|] eqn:Hj|]|].
    2-4: assert (H0 : status_calls s' = 0%nat)
        by (destruct (early_run rt key w req t0 fuel res s') as [_ [He|[q He]]];
            auto; unfold status_calls; rewrite He; reflexivity);
      rewrite H0; cbn; apply length_zero_iff_nil;
      now rewrite status_times_length.
    rewrite (generate_image_polling rt key w req t0 fuel p rid Hkey Hp Hj),
      after_loop in Hrun.
    destruct (poll_loop w rid (t0 + submit_latency w) fuel 0 (submitted w p t0))
      as [r1 s1] eqn:Hloop.
    destruct (poll_loop_times _ _ _ _ _ _ _ _ Hloop eq_refl) as [n Hn].
    change (status_times (submitted w p t0)) with (@nil Q) in Hn.
    cbn [app] in Hn.
    assert (Hs' : status_times s' = status_times s1).
    { destruct r1 as [[]|e|r0|].
      - unfold status_times. rewrite (fetch_trace _ _ _ _ _ _ Hrun).
        rewrite filter_app, map_app. cbn. now rewrite app_nil_r.
      - rewrite handle_run in Hrun. inversion Hrun; subst. reflexivity.
      - inversion Hrun; subst. reflexivity.
      - inversion Hrun; subst. reflexivity. }
    rewrite <- status_times_length, Hs', Hn, length_map, length_seq.
    reflexivity. }
  split; [exact Htimes|].
  assert (Hstep : forall j,
             (S j < status_calls s')%nat ->
             nth (S j) (status_times s') 0
             = nth j (status_times s') 0
               + status_latency w j + (POLL_INTERVAL + oversleep w j)).
  { intros j Hj. rewrite Htimes, !nth_check_clock by lia. reflexivity. }
  split; [|split].
  - intros H0. rewrite Htimes, nth_check_clock by exact H0. reflexivity.
  - exact Hstep.
  - intros Hwf j Hj. rewrite (Hstep j Hj). destruct (Hwf j) as [Hl Ho].
    unfold POLL_INTERVAL. lra.
Qed.

Lemma polls_are_spaced_witness :
  POLL_INTERVAL
  <= nth 1 (status_times (snd (generate_image sample_runtime sample_key stuck_world
                                              sample_request 0 42))) 0
     - nth 0 (status_times (snd (generate_image sample_runtime sample_key
                                                stuck_world sample_request 0 42))) 0.
Proof.
  destruct (polls_are_spaced sample_runtime sample_key stuck_world
              sample_request 0 42 _ _ (surjective_pairing _))
    as [_ [_ [_ Hgap]]].
  apply (Hgap wf_stuck_world 0%nat).
  vm_compute. repeat constructor.
Defined.

Lemma with_submit_latency_same (w : world) :
  with_submit_latency w (submit_latency w) = w.
Proof. destruct w. reflexivity. Qed.

(** X19. The handler keeps nothing from one request to the next and reads
    the clock only to measure the time since its own submit call: the same
    request in the same world gets the same answer, makes the same calls and
    sleeps and prints the same line, whatever the time at which it arrives. *)
Theorem answer_independent_of_arrival rt key w req fuel (t0 t1 : Q) :
  fst (generate_image rt key w req t0 fuel)
  = fst (generate_image rt key w req t1 fuel)
  /\ events (snd (generate_image rt key w req t0 fuel))
     = events (snd (generate_image rt key w req t1 fuel))
  /\ stdout (snd (generate_image rt key w req t0 fuel))
     = stdout (snd (generate_image rt key w req t1 fuel)).
Proof.
  destruct (key_set key) eqn:Hkey;
    [destruct (request_prompt req) as [p|] eqn:Hp;
     [destruct (job_handle w) as [rid|] eqn:Hj|]|].
  - rewrite !(generate_image_polling rt key w req _ fuel p rid Hkey Hp Hj),
      !after_loop.
    pose proof (poll_loop_shift w (submit_latency w) rid fuel 0
                  (submitted w p t0) (submitted w p t1)
                  (t0 + submit_latency w) (t1 + submit_latency w)) as Hshift.
    rewrite with_submit_latency_same in Hshift.
    destruct Hshift as [Hr [He Ho]];
      [cbn [clock submitted issued initial_state]; lra
      | reflexivity | reflexivity |].
    destruct (poll_loop w rid (t0 + submit_latency w) fuel 0 (submitted w p t0))
      as [r1 s1].
    destruct (poll_loop w rid (t1 + submit_latency w) fuel 0 (submitted w p t1))
      as [r2 s2].
    cbn [fst snd] in Hr, He, Ho. subst r2.
    destruct r1 as [[]|e|r|]; try (cbn [fst snd]; auto).
    + rewrite !fetch_result_run. unfold fetched.
      destruct (result_reply w) as [detail|code [data|]];
        [|destruct (http_error code); [|destruct (extract_image_url data)]
         |destruct (http_error code)];
        rewrite ?handle_run; cbn [fst snd]; rewrite ?events_logged;
        rewrite !events_issued, He; cbn [stdout logged issued]; rewrite Ho; auto.
    + rewrite !handle_run. cbn [fst snd]. rewrite !events_logged.
      cbn [stdout logged]. rewrite Ho. auto.
  - rewrite !(early_submit rt key w req _ fuel p Hkey Hp Hj).
    destruct (submit_reply w) as [detail|code [[ | | | | | kvs]|]];
      [|destruct (http_error code)..];
      rewrite ?handle_run; cbn [fst snd]; auto.
  - rewrite !(early_prompt rt key w req _ fuel Hkey Hp).
    destruct req as [[ | b | q | str | xs | kvs]|code];
      rewrite ?handle_run; cbn [fst snd]; auto.
  - rewrite !(early_key rt key w req _ fuel Hkey). auto.
Qed.

(** * The deadline check and the sleep *)

Lemma nth_error_rounds (rid : json) (m : nat) (l : list event) :
  forall j,
    (j < m)%nat ->
    nth_error (rounds rid m ++ l) (2 * j) = Some (EGetStatus rid)
    /\ nth_error (rounds rid m ++ l) (S (2 * j)) = Some (ESleep POLL_INTERVAL).
Proof.
  induction m as [|m IH]; intros j Hj; [lia|].
  destruct j as [|j]; [split; reflexivity|].
  replace (2 * S j)%nat with (S (S (2 * j))) by lia.
  cbn [rounds app nth_error]. apply IH. lia.
Qed.

Lemma nth_error_after_rounds (rid : json) (m : nat) (l : list event) (i : nat) :
  nth_error (rounds rid m ++ l) (2 * m + i) = nth_error l i.
Proof.
  induction m as [|m IH]; [reflexivity|].
  replace (2 * S m + i)%nat with (S (S (2 * m + i))) by lia.
  cbn [rounds app nth_error]. exact IH.
Qed.

Lemma nth_error_tail (x : event) (l : list event) (n : nat) :
  nth_error (x :: l) (S n) = nth_error l n.
Proof. reflexivity. Qed.

(** The status calls of a run are issued at the deadline checks. *)
Lemma status_times_run rt key w req t0 fuel res s' :
  generate_image rt key w req t0 fuel = (res, s') ->
  status_times s'
  = map (check_clock w (t0 + submit_latency w)) (seq 0 (status_calls s')).
Proof.
  intros Hrun.
  destruct (key_set key) eqn:Hkey;
    [destruct (request_prompt req) as [p|] eqn:Hp;
     [destruct (job_handle w) as [rid|] eqn:Hj|]|].
  2-4: assert (H0 : status_calls s' = 0%nat)
      by (destruct (early_run rt key w req t0 fuel res s') as [_ [He|[q He]]];
          auto; unfold status_calls; rewrite He; reflexivity);
    rewrite H0; cbn; apply length_zero_iff_nil;
    now rewrite status_times_length.
  rewrite (generate_image_polling rt key w req t0 fuel p rid Hkey Hp Hj),
    after_loop in Hrun.
  destruct (poll_loop w rid (t0 + submit_latency w) fuel 0 (submitted w p t0))
    as [r1 s1] eqn:Hloop.
  destruct (poll_loop_times _ _ _ _ _ _ _ _ Hloop eq_refl) as [n Hn].
  change (status_times (submitted w p t0)) with (@nil Q) in Hn.
  cbn [app] in Hn.
  assert (Hs' : status_times s' = status_times s1).
  { destruct r1 as [[]|e|r0|].
    - unfold status_times. rewrite (fetch_trace _ _ _ _ _ _ Hrun).
      rewrite filter_app, map_app. cbn. now rewrite app_nil_r.
    - rewrite handle_run in Hrun. inversion Hrun; subst. reflexivity.
    - inversion Hrun; subst. reflexivity.
    - inversion Hrun; subst. reflexivity. }
  rewrite <- status_times_length, Hs', Hn, length_map, length_seq.
  reflexivity.
Qed.

(** After a status call that found the job pending: the sleep, and then
    the deadline check, which lets the next status call through or ends the
    run. *)
Lemma pending_then_sleep rt key w req t0 fuel res s' j :
  generate_image rt key w req t0 fuel = (res, s') ->
  (j < status_calls s')%nat ->
  verdict_of (status_reply w j) = Pending ->
  (exists rid, job_handle w = Some rid
               /\ nth_error (events s') (S (2 * j)) = Some (EGetStatus rid))
  /\ nth_error (events s') (S (S (2 * j))) = Some (ESleep POLL_INTERVAL)
  /\ (((S j < status_calls s')%nat
       /\ check_clock w (t0 + submit_latency w) (S j) - (t0 + submit_latency w)
          <= timeout
       /\ exists rid, nth_error (events s') (S (S (S (2 * j))))
                      = Some (EGetStatus rid))
      \/ (status_calls s' = S j
          /\ res = Return timed_out
          /\ timeout < check_clock w (t0 + submit_latency w) (S j)
                       - (t0 + submit_latency w)
          /\ nth_error (events s') (S (S (S (2 * j)))) = None)
      \/ (status_calls s' = S j /\ res = OutOfFuel /\ fuel = S j)).
Proof.
  intros Hrun Hj Hv.
  destruct (key_set key) eqn:Hkey;
    [destruct (request_prompt req) as [p|] eqn:Hp;
     [destruct (job_handle w) as [rid|] eqn:Hh|]|].
  2-4: exfalso;
    destruct (early_run rt key w req t0 fuel res s') as [_ [He|[q He]]];
    auto; unfold status_calls in Hj; rewrite He in Hj; cbn in Hj; lia.
  destruct (polling_run _ _ _ _ _ _ _ _ _ _ Hkey Hp Hh Hrun) as [m [Hm Hend]].
  set (st := t0 + submit_latency w) in *.
  assert (Hshape : exists tail,
             events s' = EPost p :: rounds rid m ++ tail
             /\ (j < m)%nat
             /\ ((tail = [] /\ status_calls s' = m
                  /\ ((res = Return timed_out
                       /\ timeout < check_clock w st m - st)
                      \/ (res = OutOfFuel /\ fuel = m)))
                 \/ (exists more, tail = EGetStatus rid :: more
                                  /\ status_calls s' = S m
                                  /\ check_clock w st m - st <= timeout))).
  { inversion Hend as [s0 Hm' Hev Hout | s0 Hlt Hclk Hev Hout | s0 Hc Hv' Hev Hout
                       | e s0 Hc Hv' Hev Hout | s0 Hc Hv' Hev Hout]; subst.
    - destruct (calls_of_rounds s' p rid _ Hev) as [Hs _].
      exists []. rewrite app_nil_r. split; [exact Hev|]. split; [lia|].
      left. auto.
    - destruct (calls_of_rounds s' p rid _ Hev) as [Hs _].
      exists []. rewrite app_nil_r. split; [exact Hev|]. split; [lia|].
      left. auto.
    - destruct (calls_of_events s' p rid _ _ Hev) as [Hs _]. cbn in Hs.
      exists [EGetStatus rid]. split; [exact Hev|].
      assert (j <> m) by (intros ->; congruence).
      split; [lia|]. right. exists []. repeat split; [lia | exact Hc].
    - destruct (calls_of_events s' p rid _ _ Hev) as [Hs _]. cbn in Hs.
      exists [EGetStatus rid]. split; [exact Hev|].
      assert (j <> m) by (intros ->; congruence).
      split; [lia|]. right. exists []. repeat split; [lia | exact Hc].
    - destruct (calls_of_events s' p rid _ _ Hev) as [Hs _]. cbn in Hs.
      exists [EGetStatus rid; EGetResult rid]. split; [exact Hev|].
      assert (j <> m) by (intros ->; congruence).
      split; [lia|]. right. exists [EGetResult rid].
      repeat split; [lia | exact Hc]. }
  destruct Hshape as [tail [Hev [Hjm Htail]]].
  destruct (nth_error_rounds rid m tail j Hjm) as [Hcall Hsleep].
  rewrite Hev, !nth_error_tail.
  split; [exists rid; split; [reflexivity | exact Hcall]|].
  split; [exact Hsleep|].
  destruct (Nat.eq_dec (S j) m) as [Heq|Hne].
  - subst m.
    replace (S (S (2 * j))) with (2 * S j + 0)%nat by lia.
    rewrite nth_error_after_rounds.
    destruct Htail as [[-> [Hs [[Hres Hlt]|[Hres Hf]]]]|[more [-> [Hs Hc]]]].
    + right. left. auto.
    + right. right. auto.
    + left. split; [lia|]. split; [exact Hc|]. exists rid. reflexivity.
  - left.
    assert (Hlt : (S j < m)%nat) by lia.
    destruct (Hm (S j) Hlt) as [_ Hc].
    destruct (nth_error_rounds rid m tail (S j) Hlt) as [Hnext _].
    replace (S (S (2 * j))) with (2 * S j)%nat by lia.
    split; [|split; [exact Hc | exists rid; exact Hnext]].
    destruct Htail as [[_ [Hs _]]|[more [_ [Hs _]]]]; lia.
Qed.

(** C10. The deadline is checked before each status call and nowhere else.
    Every status call of a run is issued at most 120 seconds after the
    submit call returned, the first one the moment it returned, when the
    check cannot fail.  A status call that finds the job pending is
    followed by a sleep of the poll interval (3), and only then is the
    deadline checked again: the check lets the next status call through,
    issued one status call and one sleep after the one before, or it ends
    the run with the 504 answer.  So the 504 answer is given only at a check
    that directly follows a sleep, never between a status call and its
    response, at the first check later than the deadline.  How long the
    submit call itself took changes neither the answer nor the sequence of
    calls and sleeps. *)
Theorem C10_deadline_check rt key w req t0 fuel res s' :
  generate_image rt key w req t0 fuel = (res, s') ->
  (forall t rid, In (t, EGetStatus rid) (trace s') ->
                 t - (t0 + submit_latency w) <= timeout)
  /\ (forall r, res = Return r -> status r = 504%Z ->
                exists p rid m,
                  events s' = EPost p :: rounds rid (S m)
                  /\ last (events s') (EPost p) = ESleep 3
                  /\ clock s' = check_clock w (t0 + submit_latency w) (S m)
                  /\ check_clock w (t0 + submit_latency w) m
                     - (t0 + submit_latency w) <= timeout
                  /\ timeout < clock s' - (t0 + submit_latency w))
  /\ (forall p rid,
        key_set key = true ->
        request_prompt req = Some p ->
        job_handle w = Some rid ->
        exists m tail,
          events s' = EPost p :: rounds rid m ++ tail
          /\ (tail = [] \/ tail = [EGetStatus rid]
              \/ tail = [EGetStatus rid; EGetResult rid])
          /\ forall j, (j < m)%nat -> verdict_of (status_reply w j) = Pending)
  /\ (forall d,
        fst (generate_image rt key (with_submit_latency w d) req t0 fuel) = res
        /\ events (snd (generate_image rt key (with_submit_latency w d)
                                       req t0 fuel))
           = events s')
  /\ (forall j,
        (j < status_calls s')%nat ->
        verdict_of (status_reply w j) = Pending ->
        (exists rid, job_handle w = Some rid
                     /\ nth_error (events s') (S (2 * j)) = Some (EGetStatus rid))
        /\ nth_error (events s') (S (S (2 * j))) = Some (ESleep 3)
        /\ (((S j < status_calls s')%nat
             /\ check_clock w (t0 + submit_latency w) (S j)
                - (t0 + submit_latency w) <= timeout
             /\ exists rid, nth_error (events s') (S (S (S (2 * j))))
                            = Some (EGetStatus rid))
            \/ (status_calls s' = S j
                /\ res = Return timed_out
                /\ timeout < check_clock w (t0 + submit_latency w) (S j)
                             - (t0 + submit_latency w)
                /\ nth_error (events s') (S (S (S (2 * j)))) = None)
            \/ (status_calls s' = S j /\ res = OutOfFuel /\ fuel = S j)))
  /\ status_times s'
     = map (check_clock w (t0 + submit_latency w)) (seq 0 (status_calls s'))
  /\ (forall j,
        check_clock w (t0 + submit_latency w) (S j)
        = check_clock w (t0 + submit_latency w) j
          + status_latency w j + (3 + oversleep w j))
  /\ (wf_world w -> (42 <= fuel)%nat -> res <> OutOfFuel)
  /\ (forall p rid,
        key_set key = true ->
        request_prompt req = Some p ->
        job_handle w = Some rid ->
        (0 < fuel)%nat ->
        (0 < status_calls s')%nat
        /\ nth_error (status_times s') 0 = Some (t0 + submit_latency w)).
Proof.
  intros Hrun.
  split; [|split; [|split; [|split; [|split; [|split; [|split; [|split]]]]]]].
  - exact (status_stamps rt key w req t0 fuel res s' Hrun).
  - intros r -> H504.
    destruct (timeout_after_sleep rt key w req t0 fuel r s' Hrun H504)
      as [p [rid [m [Hev [Hclk [Hle Hlt]]]]]].
    exists p, rid, m. repeat split; try assumption.
    rewrite Hev. apply last_rounds.
  - intros p rid Hkey Hp Hj.
    destruct (polling_run _ _ _ _ _ _ _ _ _ _ Hkey Hp Hj Hrun) as [m [Hm Hend]].
    exists m.
    inversion Hend as [s0 Hm' Hev Hout | s0 Hlt Hclk Hev Hout | s0 Hc Hv Hev Hout
                       | e s0 Hc Hv Hev Hout | s0 Hc Hv Hev Hout]; subst;
      [exists [] | exists [] | exists [EGetStatus rid] | exists [EGetStatus rid]
       | exists [EGetStatus rid; EGetResult rid]];
      (split; [rewrite ?app_nil_r; exact Hev|]);
      (split; [auto | intros j Hlt'; exact (proj1 (Hm j Hlt'))]).
  - intros d.
    destruct (generate_image_submit_latency rt key w req t0 fuel d) as [Hr He].
    rewrite Hrun in Hr, He. exact (conj Hr He).
  - intros j Hj Hv.
    exact (pending_then_sleep rt key w req t0 fuel res s' j Hrun Hj Hv).
  - exact (status_times_run rt key w req t0 fuel res s' Hrun).
  - intros j. reflexivity.
  - intros Hwf Hfuel ->.
    destruct (key_set key) eqn:Hkey;
      [destruct (request_prompt req) as [p|] eqn:Hp;
       [destruct (job_handle w) as [rid|] eqn:Hj|]|].
    2-4: destruct (early_run rt key w req t0 fuel OutOfFuel s')
        as [[r [c [Hr _]]] _]; auto; discriminate.
    destruct (polling_run _ _ _ _ _ _ _ _ _ _ Hkey Hp Hj Hrun) as [m [Hm Hend]].
    inversion Hend; subst.
    destruct (Hm 41%nat) as [_ Hc]; [lia|].
    pose proof (rounds_within_deadline w _ 41 Hwf Hc). lia.
  - intros p rid Hkey Hp Hj Hfuel.
    destruct (polling_run _ _ _ _ _ _ _ _ _ _ Hkey Hp Hj Hrun) as [m [Hm Hend]].
    assert (Hpos : (0 < status_calls s')%nat).
    { inversion Hend as [s0 Hm' Hev Hout | s0 Hlt Hclk Hev Hout
                         | s0 Hc Hv Hev Hout | e s0 Hc Hv Hev Hout
                         | s0 Hc Hv Hev Hout]; subst.
      - destruct (calls_of_rounds s' p rid _ Hev) as [Hs _]. lia.
      - destruct (calls_of_rounds s' p rid _ Hev) as [Hs _].
        destruct m as [|m]; [|lia].
        exfalso. cbn [check_clock] in Hlt. unfold timeout in Hlt. lra.
      - destruct (calls_of_events s' p rid _ _ Hev) as [Hs _]. cbn in Hs. lia.
      - destruct (calls_of_events s' p rid _ _ Hev) as [Hs _]. cbn in Hs. lia.
      - destruct (calls_of_events s' p rid _ _ Hev) as [Hs _]. cbn in Hs. lia. }
    split; [exact Hpos|].
    rewrite (status_times_run rt key w req t0 fuel res s' Hrun).
    destruct (status_calls s') as [|n]; [lia | reflexivity].
Qed.

Lemma C10_deadline_check_witness :
  (forall t rid,
      In (t, EGetStatus rid)
         (trace (snd (generate_image sample_runtime sample_key stuck_world
                                     sample_request 0 42))) ->
      t - (0 + submit_latency stuck_world) <= timeout)
  /\ (forall d,
        fst (generate_image sample_runtime sample_key
                            (with_submit_latency stuck_world d)
                            sample_request 0 42)
        = fst (generate_image sample_runtime sample_key stuck_world
                              sample_request 0 42))
  /\ nth_error (events (snd (generate_image sample_runtime sample_key stuck_world
                                            sample_request 0 42))) 2
     = Some (ESleep 3).
Proof.
  destruct (C10_deadline_check sample_runtime sample_key stuck_world
              sample_request 0 42 _ _ (surjective_pairing _))
    as [Hstamps [_ [_ [Hshift [Hsleep _]]]]].
  split; [exact Hstamps|]. split; [intros d; exact (proj1 (Hshift d))|].
  apply (Hsleep 0%nat).
  - vm_compute. repeat constructor.
  - reflexivity.
Defined.
